(** * SleepSense manual-entry screen: the save workflow, the prediction
      client and the option picker

    The development embeds [ManualEntry_Integrated.js], which carries two
    variants of the same screen (a baseline one using the native picker and
    an enhanced one with the custom [PickerButton], console diagnostics and
    detailed error messages).

    - JavaScript strings are [string]s holding the UTF-8 encoding of the
      text (so a glyph such as the bullet is three bytes).
    - JavaScript numbers are IEEE-754 binary64 values, [spec_float] at
      precision 53 and maximal exponent 1024, with the arithmetic of
      [SpecFloat].
    - The built-ins the screen calls ([parseInt], [parseFloat], [||],
      [toFixed], [join], [includes], [JSON.stringify]) follow ECMAScript.
    - What [response.json()] resolves to is any value JSON text can
      write; reading it follows ECMAScript ([ToString], [ToNumber],
      property reads, [Array.prototype.join]), TypeErrors included.
    - [async] code is a state-and-exception monad over the screen state,
      the device key-value store and the trace of observable effects; the
      outcome of the storage write and of the network request is supplied
      by an environment.
    - [handleChange] closes over the [form] read by the render that
      created it, and takes that form as an argument; an event on the
      screen reaches the handlers of the render of the current state. *)

From Stdlib Require Import ZArith NArith String Ascii List Bool Lia.
From Stdlib Require Import Floats.SpecFloat.
From Stdlib Require Import DecimalString.
From Stdlib Require DecimalFacts DecimalPos DecimalN.
From stdpp Require Import base gmap strings list.

Local Open Scope string_scope.

(* ================================================================== *)
(** * Part I.  ECMAScript built-ins used by the screen                  *)
(* ================================================================== *)

Module JS.

(** ** Strings *)

Definition LF : string := String (ascii_of_N 10) EmptyString.
Definition DQUOTE : string := String (ascii_of_N 34) EmptyString.

Definition code (c : ascii) : N := N_of_ascii c.

Definition is_digit (c : ascii) : bool :=
  ((48 <=? code c) && (code c <=? 57))%N.

Definition digit_value (c : ascii) : Z := Z.of_N (code c - 48).

Fixpoint all_digits (s : string) : bool :=
  match s with
  | EmptyString => true
  | String c r => is_digit c && all_digits r
  end.

(** Decimal digits of a natural number ("0" for zero). *)
Definition dec (n : Z) : string :=
  NilZero.string_of_uint (N.to_uint (Z.to_N n)).

Fixpoint repeat_string (n : nat) (s : string) : string :=
  match n with
  | O => EmptyString
  | S k => s +:+ repeat_string k s
  end.

(** [String.prototype.includes]: [needle] occurs in [hay]. *)
Fixpoint includes (hay needle : string) : bool :=
  String.prefix needle hay ||
  match hay with
  | EmptyString => false
  | String _ r => includes r needle
  end.

(** [Array.prototype.join] on an array of strings. *)
Fixpoint join (sep : string) (xs : list string) : string :=
  match xs with
  | [] => EmptyString
  | [x] => x
  | x :: r => x +:+ sep +:+ join sep r
  end.

(** ** White space ([StrWhiteSpaceChar]: WhiteSpace and LineTerminator)

    TAB, LF, VT, FF, CR and SP are single bytes.  The others are matched
    by their UTF-8 encodings: U+00A0; U+1680; U+2000 to U+200A, U+2028,
    U+2029, U+202F; U+205F; U+3000; U+FEFF. *)

Definition ws1 (c : ascii) : bool :=
  let n := code c in
  ((9 <=? n) && (n <=? 13) || (n =? 32))%N.

Definition ws2 (c1 c2 : ascii) : bool :=
  ((code c1 =? 194) && (code c2 =? 160))%N.

Definition ws3 (c1 c2 c3 : ascii) : bool :=
  let '(a, b, c) := (code c1, code c2, code c3) in
  ((a =? 225) && (b =? 154) && (c =? 128)
   || (a =? 226) && (b =? 128)
        && ((128 <=? c) && (c <=? 138) || (c =? 168) || (c =? 169) || (c =? 175))
   || (a =? 226) && (b =? 129) && (c =? 159)
   || (a =? 227) && (b =? 128) && (c =? 128)
   || (a =? 239) && (b =? 187) && (c =? 191))%N.

(** [TrimString(s, start)]. *)
Fixpoint TrimStart (s : string) : string :=
  match s with
  | EmptyString => s
  | String c1 r1 =>
      if ws1 c1 then TrimStart r1
      else match r1 with
           | EmptyString => s
           | String c2 r2 =>
               if ws2 c1 c2 then TrimStart r2
               else match r2 with
                    | EmptyString => s
                    | String c3 r3 =>
                        if ws3 c1 c2 c3 then TrimStart r3 else s
                    end
           end
  end.

(** A string of white space only, with at least one character. *)
Definition whitespace_only (s : string) : bool :=
  negb (String.eqb s EmptyString) && String.eqb (TrimStart s) EmptyString.

(** ** Numbers: IEEE-754 binary64 *)

Abbreviation number := spec_float.

Definition prec : Z := 53.
Definition emax : Z := 1024.

Definition NaN : number := S754_nan.

Definition is_NaN (x : number) : bool :=
  match x with S754_nan => true | _ => false end.

Definition is_zero (x : number) : bool :=
  match x with S754_zero _ => true | _ => false end.

Definition is_finite (x : number) : bool :=
  match x with S754_zero _ | S754_finite _ _ _ => true | _ => false end.

Definition Number_eqb (x y : number) : bool :=
  match x, y with
  | S754_zero a, S754_zero b => Bool.eqb a b
  | S754_infinity a, S754_infinity b => Bool.eqb a b
  | S754_nan, S754_nan => true
  | S754_finite a m e, S754_finite b m' e' =>
      Bool.eqb a b && (m =? m')%positive && (e =? e')%Z
  | _, _ => false
  end.

Local Open Scope Z_scope.

(** The Number value of an integer. *)
Definition Number_of_Z (z : Z) : number := binary_normalize prec emax z 0 false.

(** The Number value of [M * 10^E], rounded to nearest, ties to even.  For a
    negative [E] the quotient is computed with at least 64 significant bits
    and a sticky bit, which rounds as the exact quotient does. *)
Definition Number_of_decimal (neg : bool) (M : Z) (E : Z) : number :=
  match M with
  | Zpos p =>
      if 0 <=? E then binary_round prec emax neg (p * Z.to_pos (10 ^ E)) 0
      else
        let d := 10 ^ (- E) in
        let k := Z.log2_up d + 64 in
        let q := (Zpos p * 2 ^ k) / d in
        let sticky := if (Zpos p * 2 ^ k) mod d =? 0 then 0 else 1 in
        binary_round prec emax neg (Z.to_pos (2 * q + sticky)) (- k - 1)
  | _ => S754_zero neg
  end.

(** [x * y] on Numbers. *)
Definition Number_mul (x y : number) : number := SFmul prec emax x y.

(** Exact comparison of [m * 2^e] with [s * 10^j]. *)
Definition cmp_scaled (m : Z) (e : Z) (s : Z) (j : Z) : comparison :=
  (m * 2 ^ Z.max e 0 * 10 ^ Z.max (- j) 0)
    ?= (s * 10 ^ Z.max j 0 * 2 ^ Z.max (- e) 0).

(** [m * 2^e < 10^21]. *)
Definition below_1e21 (m : positive) (e : Z) : bool :=
  match cmp_scaled (Zpos m) e 1 21 with Lt => true | _ => false end.

(** *** Number::toString (radix 10) *)

(** The least [j], from [j0] on, with [m * 2^e < 10^j]. *)
Fixpoint decade_from (fuel : nat) (m : positive) (e : Z) (j0 : Z) : Z :=
  match fuel with
  | O => j0
  | S f =>
      match cmp_scaled (Zpos m) e 1 j0 with
      | Lt => j0
      | _ => decade_from f m e (j0 + 1)
      end
  end.

(** [n] with [10^(n-1) <= m * 2^e < 10^n]. *)
Definition decade (m : positive) (e : Z) : Z :=
  let b := Zpos (digits2_pos m) + e in
  decade_from 8 m e (((b - 1) * 30103) / 100000 - 1).

(** Whether the decimal [s * 10^j] reads back as the finite [m * 2^e]. *)
Definition reads_back (m : positive) (e : Z) (s : Z) (j : Z) : bool :=
  Number_eqb (Number_of_decimal false s j) (S754_finite false m e).

(** The candidates with [k] digits: the two neighbours of
    [m * 2^e / 10^(n - k)], the closer first (the even one on a tie). *)
Definition shortest_at (m : positive) (e : Z) (n k : Z) : option (Z * Z) :=
  let j := n - k in
  let num := Zpos m * 2 ^ Z.max e 0 * 10 ^ Z.max (- j) 0 in
  let den := 2 ^ Z.max (- e) 0 * 10 ^ Z.max j 0 in
  let lo := num / den in
  let hi := if num mod den =? 0 then lo else lo + 1 in
  let lo_ok := (10 ^ (k - 1) <=? lo) && reads_back m e lo j in
  let hi_ok := reads_back m e hi j in
  let pick_hi :=
    match cmp_scaled (2 * Zpos m) e (lo + hi) j with
    | Lt => false
    | Gt => true
    | Eq => Z.even hi
    end in
  let norm := fun s => if s =? 10 ^ k then (10 ^ (k - 1), n + 1) else (s, n) in
  if lo_ok && hi_ok then Some (norm (if pick_hi then hi else lo))
  else if lo_ok then Some (lo, n)
  else if hi_ok then Some (norm hi)
  else None.

Fixpoint shortest_from (fuel : nat) (m : positive) (e : Z) (n k : Z)
  : Z * Z * Z :=
  match fuel with
  | O => (Zpos m, e, 0)
  | S f =>
      match shortest_at m e n k with
      | Some (s, n') => (s, n', k)
      | None => shortest_from f m e n (k + 1)
      end
  end.

(** [(s, n, k)] of Number::toString: [k] digits [s] with
    [s * 10^(n - k)] reading back as the number, [k] as small as possible. *)
Definition shortest (m : positive) (e : Z) : Z * Z * Z :=
  shortest_from 17 m e (decade m e) 1.

Definition exponent_suffix (n : Z) : string :=
  "e" +:+ (if 0 <=? n - 1 then "+" else "-") +:+ dec (Z.abs (n - 1)).

Definition format_shortest (s n k : Z) : string :=
  let ds := dec s in
  if (k <=? n) && (n <=? 21) then
    ds +:+ repeat_string (Z.to_nat (n - k)) "0"
  else if (0 <? n) && (n <=? 21) then
    substring 0 (Z.to_nat n) ds +:+ "."
      +:+ substring (Z.to_nat n) (Z.to_nat (k - n)) ds
  else if (-6 <? n) && (n <=? 0) then
    "0." +:+ repeat_string (Z.to_nat (- n)) "0" +:+ ds
  else if k =? 1 then ds +:+ exponent_suffix n
  else
    substring 0 1 ds +:+ "." +:+ substring 1 (Z.to_nat (k - 1)) ds
      +:+ exponent_suffix n.

Definition Number_toString (x : number) : string :=
  match x with
  | S754_nan => "NaN"
  | S754_zero _ => "0"
  | S754_infinity s => if s then "-Infinity" else "Infinity"
  | S754_finite sg m e =>
      let '(s, n, k) := shortest m e in
      (if sg then "-" else EmptyString) +:+ format_shortest s n k
  end.

(** *** Number.prototype.toFixed *)

(** The integer [n] for which [n / 10^f - m * 2^e] is as close to zero as
    possible, the larger one when there are two. *)
Definition toFixed_integer (m : positive) (e : Z) (f : nat) : Z :=
  let a := Zpos m * 10 ^ Z.of_nat f in
  if 0 <=? e then a * 2 ^ e
  else (2 * a + 2 ^ (- e)) / 2 ^ (1 - e).

(** Steps 11.b to 11.c: the digits of [n], padded to [f + 1] characters,
    with the point before the last [f]. *)
Definition toFixed_digits (n : Z) (f : nat) : string :=
  let m := dec n in
  match f with
  | O => m
  | _ =>
      let k := String.length m in
      let m' := if (k <=? f)%nat then repeat_string (f + 1 - k) "0" +:+ m else m in
      let k' := String.length m' in
      substring 0 (k' - f) m' +:+ "." +:+ substring (k' - f) f m'
  end.

Definition toFixed (x : number) (f : nat) : string :=
  match x with
  | S754_nan | S754_infinity _ => Number_toString x
  | S754_zero _ => toFixed_digits 0 f
  | S754_finite sg m e =>
      (if sg then "-" else EmptyString) +:+
      (if below_1e21 m e then toFixed_digits (toFixed_integer m e f) f
       else Number_toString (S754_finite false m e))
  end.

(** ** [parseFloat] and [parseInt] *)

(** The longest prefix of decimal digits, and what follows it. *)
Fixpoint take_digits (s : string) : string * string :=
  match s with
  | String c r =>
      if is_digit c then let '(d, r') := take_digits r in (String c d, r')
      else (EmptyString, s)
  | EmptyString => (EmptyString, EmptyString)
  end.

(** The mathematical value of a string of decimal digits. *)
Definition digits_value (ds : string) : Z :=
  fold_left (fun acc c => 10 * acc + digit_value c) (list_ascii_of_string ds) 0.

(** A leading sign: whether it is [-], and the remainder. *)
Definition take_sign (s : string) : bool * string :=
  match s with
  | String c r =>
      if (code c =? 45)%N then (true, r)
      else if (code c =? 43)%N then (false, r)
      else (false, s)
  | EmptyString => (false, s)
  end.

(** The value of the longest [ExponentPart] that starts [s], zero when there
    is none ([e] or [E], an optional sign, at least one digit). *)
Definition exponent_part (s : string) : Z :=
  match s with
  | String c r =>
      if ((code c =? 101) || (code c =? 69))%N then
        let '(neg, r1) := take_sign r in
        let '(ds, _) := take_digits r1 in
        if String.eqb ds EmptyString then 0
        else if neg then - digits_value ds else digits_value ds
      else 0
  | EmptyString => 0
  end.

(** [parseFloat(input)]: the Number value of the longest prefix of the
    trimmed input that is a [StrDecimalLiteral], [NaN] when there is none. *)
Definition parseFloat (input : string) : number :=
  let '(neg, s) := take_sign (TrimStart input) in
  if String.prefix "Infinity" s then S754_infinity neg
  else
    let '(ip, r1) := take_digits s in
    let '(fp, r2) :=
      match r1 with
      | String c r => if (code c =? 46)%N then take_digits r else (EmptyString, r1)
      | EmptyString => (EmptyString, r1)
      end in
    if String.eqb ip EmptyString && String.eqb fp EmptyString then NaN
    else
      Number_of_decimal neg (digits_value (ip +:+ fp))
        (exponent_part r2 - Z.of_nat (String.length fp)).

(** The value of a hexadecimal digit. *)
Definition hex_value (c : ascii) : option Z :=
  let n := code c in
  if is_digit c then Some (Z.of_N (n - 48))
  else if ((97 <=? n) && (n <=? 102))%N then Some (Z.of_N (n - 87))
  else if ((65 <=? n) && (n <=? 70))%N then Some (Z.of_N (n - 55))
  else None.

(** The longest prefix of digits of the radix, as their values. *)
Fixpoint take_radix_digits (hex : bool) (s : string) : list Z :=
  match s with
  | String c r =>
      match (if hex then hex_value c
             else if is_digit c then Some (digit_value c) else None) with
      | Some v => v :: take_radix_digits hex r
      | None => []
      end
  | EmptyString => []
  end.

(** [parseInt(input)] with no radix argument: radix 16 after a [0x] or [0X]
    prefix and 10 otherwise; [NaN] when no digit follows the sign. *)
Definition parseInt (input : string) : number :=
  let '(neg, s) := take_sign (TrimStart input) in
  let hex := String.prefix "0x" s || String.prefix "0X" s in
  let ds := take_radix_digits hex (if hex then substring 2 (String.length s - 2) s else s) in
  match ds with
  | [] => NaN
  | _ =>
      let v := fold_left (fun acc d => (if hex then 16 else 10) * acc + d) ds 0 in
      binary_normalize prec emax (if neg then - v else v) 0 neg
  end.

Local Close Scope Z_scope.

(** ** Values, truthiness and [||] *)

Inductive JsValue :=
| Null
| Num (x : number)
| Str (s : string).

(** [ToBoolean]. *)
Definition ToBoolean (v : JsValue) : bool :=
  match v with
  | Null => false
  | Num x => negb (is_zero x || is_NaN x)
  | Str s => negb (String.eqb s EmptyString)
  end.

(** [a || b]: [a] when it is truthy, [b] otherwise. *)
Definition or_else (a b : JsValue) : JsValue := if ToBoolean a then a else b.

(** An object literal: its properties in creation order. *)
Definition object := list (string * JsValue).

Fixpoint get (o : object) (k : string) : option JsValue :=
  match o with
  | [] => None
  | (k', v) :: r => if String.eqb k' k then Some v else get r k
  end.

(** ** [JSON.stringify] *)

Definition hex_digit (n : N) : ascii :=
  ascii_of_N (if (n <? 10)%N then 48 + n else 87 + n)%N.

(** One character of [QuoteJSONString]. *)
Definition quote_char (c : ascii) : string :=
  let n := code c in
  let bs := String (ascii_of_N 92) EmptyString in
  if (n =? 8)%N then bs +:+ "b"
  else if (n =? 9)%N then bs +:+ "t"
  else if (n =? 10)%N then bs +:+ "n"
  else if (n =? 12)%N then bs +:+ "f"
  else if (n =? 13)%N then bs +:+ "r"
  else if (n =? 34)%N then bs +:+ DQUOTE
  else if (n =? 92)%N then bs +:+ bs
  else if (n <? 32)%N then
    bs +:+ "u00" +:+ String (hex_digit (n / 16)) (String (hex_digit (n mod 16)) EmptyString)
  else String c EmptyString.

Fixpoint quote_chars (s : string) : string :=
  match s with
  | EmptyString => EmptyString
  | String c r => quote_char c +:+ quote_chars r
  end.

Definition QuoteJSONString (s : string) : string :=
  DQUOTE +:+ quote_chars s +:+ DQUOTE.

(** A property value: a Number that is not finite is written [null]. *)
Definition JSON_value (v : JsValue) : string :=
  match v with
  | Null => "null"
  | Num x => if is_finite x then Number_toString x else "null"
  | Str s => QuoteJSONString s
  end.

Definition JSON_stringify (o : object) : string :=
  "{" +:+ join "," (map (fun kv => QuoteJSONString (fst kv) +:+ ":" +:+ JSON_value (snd kv)) o)
      +:+ "}".

(** ** [StringToNumber] *)

(** Nothing but white space. *)
Definition blank (s : string) : bool := String.eqb (TrimStart s) EmptyString.

(** The value of a digit of the radix. *)
Definition digit_in (radix : Z) (c : ascii) : option Z :=
  match hex_value c with
  | Some v => if (v <? radix)%Z then Some v else None
  | None => None
  end.

(** The longest prefix of digits of the radix, as their values, and what
    follows it. *)
Fixpoint take_in (radix : Z) (s : string) : list Z * string :=
  match s with
  | String c r =>
      match digit_in radix c with
      | Some v => let '(ds, r') := take_in radix r in (v :: ds, r')
      | None => ([], s)
      end
  | EmptyString => ([], s)
  end.

(** The radix announced by [0x], [0o] or [0b] (in either case), and what
    follows the prefix. *)
Definition radix_prefix (s : string) : option (Z * string) :=
  match s with
  | String c0 (String c1 r) =>
      if (code c0 =? 48)%N then
        if ((code c1 =? 120) || (code c1 =? 88))%N then Some (16%Z, r)
        else if ((code c1 =? 111) || (code c1 =? 79))%N then Some (8%Z, r)
        else if ((code c1 =? 98) || (code c1 =? 66))%N then Some (2%Z, r)
        else None
      else None
  | _ => None
  end.

(** The [ExponentPart] that starts [s]: its value and what follows it, or
    zero and [s] itself when there is none. *)
Definition take_exponent (s : string) : Z * string :=
  match s with
  | String c r =>
      if ((code c =? 101) || (code c =? 69))%N then
        let '(neg, r1) := take_sign r in
        let '(ds, r2) := take_digits r1 in
        if String.eqb ds EmptyString then (0%Z, s)
        else ((if neg then - digits_value ds else digits_value ds)%Z, r2)
      else (0%Z, s)
  | EmptyString => (0%Z, s)
  end.

(** [StringToNumber(input)]: zero for white space only; otherwise the
    Number the whole trimmed string writes as a [StrNumericLiteral] (a
    signed decimal literal or [Infinity], or an unsigned binary, octal or
    hexadecimal integer), and [NaN] when it is none. *)
Definition StringToNumber (input : string) : number :=
  let s := TrimStart input in
  if String.eqb s EmptyString then S754_zero false
  else
    match radix_prefix s with
    | Some (radix, r) =>
        match take_in radix r with
        | ([], _) => NaN
        | (ds, rest) =>
            if blank rest then
              Number_of_Z (fold_left (fun acc d => radix * acc + d)%Z ds 0%Z)
            else NaN
        end
    | None =>
        let '(neg, s1) := take_sign s in
        if String.prefix "Infinity" s1 then
          if blank (substring 8 (String.length s1 - 8) s1) then S754_infinity neg
          else NaN
        else
          let '(ip, r1) := take_digits s1 in
          let '(fp, r2) :=
            match r1 with
            | String c r => if (code c =? 46)%N then take_digits r else (EmptyString, r1)
            | EmptyString => (EmptyString, r1)
            end in
          if String.eqb ip EmptyString && String.eqb fp EmptyString then NaN
          else
            let '(ex, r3) := take_exponent r2 in
            if blank r3 then
              Number_of_decimal neg (digits_value (ip +:+ fp))
                (ex - Z.of_nat (String.length fp))%Z
            else NaN
    end.

(** ** Values without functions

    What [response.json()] resolves to, and what reading its properties
    gives: JSON text never decodes to [undefined], a missing property
    reads as it. *)

#[local] Unset Elimination Schemes.

Inductive Value :=
| VUndefined
| VNull
| VBool (b : bool)
| VNum (x : number)
| VStr (s : string)
| VArr (items : list Value)
| VObj (members : list (string * Value)).

#[local] Set Elimination Schemes.

(** The own property [name] of an object with the given members; of two
    members with one name the later one stands, as [JSON.parse] leaves
    it. *)
Fixpoint own (members : list (string * Value)) (name : string) : option Value :=
  match members with
  | [] => None
  | (k, v) :: r =>
      match own r name with
      | Some w => Some w
      | None => if String.eqb k name then Some v else None
      end
  end.

(** Reading and converting can throw a TypeError: [None] below.

    [v.name], for a name that is no index and that no built-in prototype
    defines: a TypeError on [undefined] and [null], the own property of an
    object or else [undefined], and [undefined] on every other value. *)
Definition Get (v : Value) (name : string) : option Value :=
  match v with
  | VUndefined | VNull => None
  | VObj members => Some (default VUndefined (own members name))
  | _ => Some VUndefined
  end.

(** The elements of an array as [Array.prototype.join] writes them:
    nothing for [undefined] and [null], [ToString] of anything else. *)
Definition elements_with (text : Value -> option string)
  : list Value -> option (list string) :=
  fix elements (l : list Value) : option (list string) :=
    match l with
    | [] => Some []
    | x :: r =>
        match (match x with
               | VUndefined | VNull => Some EmptyString
               | _ => text x
               end), elements r with
        | Some a, Some b => Some (a :: b)
        | _, _ => None
        end
    end.

(** [ToString].  An array is joined with commas.  An object is
    "[object Object]", unless it has an own [toString]: that is data, not
    a function, [valueOf] gives no primitive either, and the conversion
    throws. *)
Fixpoint ToString (v : Value) : option string :=
  match v with
  | VUndefined => Some "undefined"
  | VNull => Some "null"
  | VBool b => Some (if b then "true" else "false")
  | VNum x => Some (Number_toString x)
  | VStr s => Some s
  | VArr items => option_map (join ",") (elements_with ToString items)
  | VObj members =>
      match own members "toString" with
      | Some _ => None
      | None => Some "[object Object]"
      end
  end.

(** [ToNumber]: an array or an object goes by its [ToString]. *)
Definition ToNumber (v : Value) : option number :=
  match v with
  | VUndefined => Some NaN
  | VNull => Some (S754_zero false)
  | VBool b => Some (if b then Number_of_Z 1 else S754_zero false)
  | VNum x => Some x
  | VStr s => Some (StringToNumber s)
  | VArr _ | VObj _ => option_map StringToNumber (ToString v)
  end.

(** [v.join(sep)]: [Array.prototype.join] on an array.  Nothing else has
    a [join] that can be called: [undefined] and [null] have no
    properties, and an own [join] of an object is data. *)
Definition call_join (v : Value) (sep : string) : option string :=
  match v with
  | VArr items => option_map (join sep) (elements_with ToString items)
  | _ => None
  end.

End JS.

(* ================================================================== *)
(** * Part II.  Data model, environment and effects                     *)
(* ================================================================== *)

(** The form state of [ManualEntry]: twelve text fields. *)
Record FormEntry := {
  gender : string;
  age : string;
  occupation : string;
  sleepDuration : string;
  sleepQuality : string;
  physicalActivity : string;
  stressLevel : string;
  bmiCategory : string;
  bloodPressure : string;
  heartRate : string;
  dailySteps : string;
  sleepDisorder : string
}.

(** The initial [form]: every field the empty string. *)
Definition initial_form : FormEntry :=
  {| gender := EmptyString; age := EmptyString; occupation := EmptyString;
     sleepDuration := EmptyString; sleepQuality := EmptyString;
     physicalActivity := EmptyString; stressLevel := EmptyString;
     bmiCategory := EmptyString; bloodPressure := EmptyString;
     heartRate := EmptyString; dailySteps := EmptyString;
     sleepDisorder := EmptyString |}.

(** The form as the object [JSON.stringify(form)] sees: its properties in
    creation order. *)
Definition form_object (f : FormEntry) : JS.object :=
  [ ("gender", JS.Str (gender f));
    ("age", JS.Str (age f));
    ("occupation", JS.Str (occupation f));
    ("sleepDuration", JS.Str (sleepDuration f));
    ("sleepQuality", JS.Str (sleepQuality f));
    ("physicalActivity", JS.Str (physicalActivity f));
    ("stressLevel", JS.Str (stressLevel f));
    ("bmiCategory", JS.Str (bmiCategory f));
    ("bloodPressure", JS.Str (bloodPressure f));
    ("heartRate", JS.Str (heartRate f));
    ("dailySteps", JS.Str (dailySteps f));
    ("sleepDisorder", JS.Str (sleepDisorder f)) ].

(** [!s] on a string. *)
Definition empty_field (s : string) : bool := negb (JS.ToBoolean (JS.Str s)).

(** A prediction as the integration guide gives it: what the body of a
    successful response is meant to carry.  ([explanation] is never read
    by the screen.) *)
Record PredictionResponse := {
  prediction : string;
  confidence : JS.number;
  recommendations : list string
}.

(** An [Error] object: the screen reads only its [message]. *)
Record Error := { message : string }.

(** What [fetch] is called with. *)
Record Request := {
  url : string;
  method : string;
  headers : list (string * string);
  body : string
}.

(** What [fetch] resolves to: the status, the payload as [text()] gives it
    and as [json()] decodes it (any value JSON text can write), or the
    error [json()] rejects with. *)
Record Response := {
  status : N;
  text : string;
  json : Error + JS.Value
}.

(** [response.ok]: the status is in the range 200 to 299. *)
Definition ok (r : Response) : bool := ((200 <=? status r) && (status r <=? 299))%N.

Inductive FetchResult :=
| Rejected (e : Error)
| Resolved (r : Response).

(** The environment of a run: whether [AsyncStorage.setItem] rejects (and
    with which error), what [fetch] settles to, and the TypeError the
    engine throws when an expression of the run cannot be evaluated (its
    message is the engine's own). *)
Record Env := {
  setItem_result : string -> string -> option Error;
  fetch_result : Request -> FetchResult;
  type_error : Error
}.

(** Observable effects.  Console output is recorded by its leading text. *)
Inductive Event :=
| SetLoading (b : bool)
| Alert (msg : string)
| SetItem (key item : string)
| Fetch (req : Request)
| GoBack
| ConsoleLog (what : string)
| ConsoleError (what : string).

(** The screen state ([form], [loading]) and the device store. *)
Record State := {
  form : FormEntry;
  loading : bool;
  storage : gmap string string
}.

Definition initial_state : State :=
  {| form := initial_form; loading := false; storage := ∅ |}.

Inductive Outcome (A : Type) :=
| Returned (a : A)
| Thrown (e : Error).
Arguments Returned {A} a.
Arguments Thrown {A} e.

(** An asynchronous computation: from the environment and the state to an
    outcome, the new state and the effects in the order they happened. *)
Definition Async (A : Type) : Type :=
  Env -> State -> Outcome A * State * list Event.

#[export] Instance Async_ret : MRet Async :=
  fun A a _ s => (Returned a, s, []).

#[export] Instance Async_bind : MBind Async :=
  fun A B k m env s =>
    match m env s with
    | (Returned a, s1, t1) =>
        let '(o, s2, t2) := k a env s1 in (o, s2, (t1 ++ t2)%list)
    | (Thrown e, s1, t1) => (Thrown e, s1, t1)
    end.

(** [throw e]. *)
Definition throw {A} (e : Error) : Async A :=
  fun _ s => (Thrown e, s, []).

(** [try { body } catch (e) { handler e }]. *)
Definition try_catch {A} (body : Async A) (handler : Error -> Async A) : Async A :=
  fun env s =>
    match body env s with
    | (Returned a, s1, t1) => (Returned a, s1, t1)
    | (Thrown e, s1, t1) =>
        let '(o, s2, t2) := handler e env s1 in (o, s2, (t1 ++ t2)%list)
    end.

Definition emit (ev : Event) : Async unit :=
  fun _ s => (Returned tt, s, [ev]).

(** The [form] the closure captured. *)
Definition read_form : Async FormEntry :=
  fun _ s => (Returned (form s), s, []).

Definition setLoading (b : bool) : Async unit :=
  fun _ s =>
    (Returned tt, {| form := form s; loading := b; storage := storage s |},
     [SetLoading b]).

Definition alert (msg : string) : Async unit := emit (Alert msg).

Definition console_log (what : string) : Async unit := emit (ConsoleLog what).

Definition console_error (what : string) : Async unit := emit (ConsoleError what).

Definition navigation_goBack : Async unit := emit GoBack.

(** [await AsyncStorage.setItem(key, item)]: the item replaces what the key
    held, unless the store rejects the write. *)
Definition AsyncStorage_setItem (key item : string) : Async unit :=
  fun env s =>
    match setItem_result env key item with
    | Some e => (Thrown e, s, [SetItem key item])
    | None =>
        (Returned tt,
         {| form := form s; loading := loading s;
            storage := <[key := item]> (storage s) |},
         [SetItem key item])
    end.

(** [await fetch(url, { method, headers, body })]. *)
Definition fetch (req : Request) : Async Response :=
  fun env s =>
    match fetch_result env req with
    | Rejected e => (Thrown e, s, [Fetch req])
    | Resolved r => (Returned r, s, [Fetch req])
    end.

(** [await response.json()]. *)
Definition response_json (r : Response) : Async JS.Value :=
  match json r with
  | inl e => throw e
  | inr data => mret data
  end.

(** An expression that reads a decoded value: its result, or the engine's
    TypeError thrown. *)
Definition evaluate {A} (x : option A) : Async A :=
  fun env s =>
    match x with
    | Some a => (Returned a, s, [])
    | None => (Thrown (type_error env), s, [])
    end.

(** [await response.text()]. *)
Definition response_text (r : Response) : Async string := mret (text r).

(** ** What a trace shows *)

Definition alerts (t : list Event) : list string :=
  omap (fun ev => match ev with Alert m => Some m | _ => None end) t.

Definition writes (t : list Event) : list (string * string) :=
  omap (fun ev => match ev with SetItem k v => Some (k, v) | _ => None end) t.

Definition requests (t : list Event) : list Request :=
  omap (fun ev => match ev with Fetch r => Some r | _ => None end) t.

Definition loading_updates (t : list Event) : list bool :=
  omap (fun ev => match ev with SetLoading b => Some b | _ => None end) t.

Definition navigations (t : list Event) : nat :=
  length (List.filter (fun ev => match ev with GoBack => true | _ => false end) t).

(** The writes and the requests of a trace, in the order they happened. *)
Definition io_events (t : list Event) : list Event :=
  List.filter
    (fun ev => match ev with SetItem _ _ | Fetch _ => true | _ => false end) t.

(* ================================================================== *)
(** * Part III.  The prediction client and the save workflow            *)
(* ================================================================== *)

Definition API_URL : string := "https://workspace-sashima.replit.dev".

(** The object literal both variants pass to [JSON.stringify]. *)
Definition request_object (formData : FormEntry) : JS.object :=
  [ ("age", JS.Num (JS.parseInt (age formData)));
    ("gender", JS.Str (gender formData));
    ("daily_steps",
       JS.or_else (JS.Num (JS.parseFloat (dailySteps formData))) JS.Null);
    ("physical_activity_minutes",
       JS.or_else (JS.Num (JS.parseFloat (physicalActivity formData))) JS.Null);
    ("stress_level",
       JS.or_else (JS.Num (JS.parseFloat (stressLevel formData))) JS.Null);
    ("bmi_category", JS.or_else (JS.Str (bmiCategory formData)) JS.Null) ].

(** The request both variants issue. *)
Definition predict_request (formData : FormEntry) : Request :=
  {| url := API_URL +:+ "/predict";
     method := "POST";
     headers := [("Content-Type", "application/json")];
     body := JS.JSON_stringify (request_object formData) |}.

Definition bullet : string := "• ".

(** [${prediction.prediction}]. *)
Definition prediction_label (prediction : JS.Value) : option string :=
  label ← JS.Get prediction "prediction";
  JS.ToString label.

(** [${(prediction.confidence * 100).toFixed(1)}]. *)
Definition confidence_percent (prediction : JS.Value) : option string :=
  c ← JS.Get prediction "confidence";
  x ← JS.ToNumber c;
  Some (JS.toFixed (JS.Number_mul x (JS.Number_of_Z 100)) 1).

(** [${prediction.recommendations.join('\n• ')}]. *)
Definition recommendation_lines (prediction : JS.Value) : option string :=
  list ← JS.Get prediction "recommendations";
  JS.call_join list (JS.LF +:+ bullet).

Definition validation_notice : string := "Please fill in at least Age and Gender".

(** ** Baseline variant *)

Module Baseline.

Definition getPrediction (formData : FormEntry) : Async JS.Value :=
  try_catch
    (response ← fetch (predict_request formData);
     if negb (ok response) then throw {| message := "Failed to get prediction" |}
     else
       data ← response_json response;
       mret data)
    (fun error =>
       console_error "API Error:";;
       throw error).

(** The argument of the success [alert]: its three template literals,
    evaluated in order. *)
Definition success_notice (prediction : JS.Value) : option string :=
  label ← prediction_label prediction;
  percent ← confidence_percent prediction;
  lines ← recommendation_lines prediction;
  Some ("Sleep Quality Prediction: " +:+ label +:+ JS.LF +:+ JS.LF
        +:+ "Confidence: " +:+ percent +:+ "%" +:+ JS.LF +:+ JS.LF
        +:+ "Recommendations:" +:+ JS.LF +:+ bullet +:+ lines).

Definition failure_notice : string :=
  "Error getting prediction. Please check your internet connection and try again.".

Definition saveData : Async unit :=
  try_catch
    (form ← read_form;
     if empty_field (age form) || empty_field (gender form) then
       alert validation_notice
     else
       setLoading true;;
       AsyncStorage_setItem "manualEntry" (JS.JSON_stringify (form_object form));;
       prediction ← getPrediction form;
       setLoading false;;
       notice ← evaluate (success_notice prediction);
       alert notice;;
       navigation_goBack)
    (fun e =>
       setLoading false;;
       console_log (message e);;
       alert failure_notice).

End Baseline.

(** ** Enhanced variant *)

Module Enhanced.

(** [`Server error: ${response.status} - ${errorText}`]. *)
Definition server_error_message (st : N) (errorText : string) : string :=
  "Server error: " +:+ JS.Number_toString (JS.Number_of_Z (Z.of_N st))
  +:+ " - " +:+ errorText.

Definition getPrediction (formData : FormEntry) : Async JS.Value :=
  try_catch
    (console_log "Sending request to:";;
     console_log "Request data:";;
     response ← fetch (predict_request formData);
     console_log "Response status:";;
     (if negb (ok response) then
        errorText ← response_text response;
        console_log "Error response:";;
        throw {| message := server_error_message (status response) errorText |}
      else mret tt);;
     data ← response_json response;
     console_log "Success! Response:";;
     mret data)
    (fun error =>
       console_error "API Error Details:";;
       console_error "Error message:";;
       throw error).

(** *** The picker button *)

Record PickerOption := { option_label : string; option_value : string }.

(** The props of [PickerButton]; the calls of [onSelect] are recorded by
    their argument. *)
Record PickerProps := {
  label : string;
  value : string;
  options : list PickerOption
}.

Inductive TextStyle := pickerButtonText | pickerButtonTextSelected.

(** What a render shows: the header text and its style, the arrow, and the
    option rows (their labels) when the list is open. *)
Record PickerView := {
  header_style : TextStyle;
  header_text : string;
  arrow : string;
  rows : option (list string)
}.

(** [useState(false)]. *)
Definition showOptions_initial : bool := false.

Definition PickerButton (props : PickerProps) (showOptions : bool) : PickerView :=
  {| header_style :=
       if JS.ToBoolean (JS.Str (value props)) then pickerButtonTextSelected
       else pickerButtonText;
     header_text :=
       if JS.ToBoolean (JS.Str (value props)) then value props else label props;
     arrow := "▼";
     rows :=
       if showOptions then Some (map option_label (options props)) else None |}.

Inductive Press :=
| PressHeader
| PressOption (i : nat).

(** A press on what is rendered: the next [showOptions] and the arguments
    [onSelect] was called with.  A row that is not rendered cannot be
    pressed. *)
Definition press (props : PickerProps) (showOptions : bool) (p : Press)
  : option (bool * list string) :=
  match p with
  | PressHeader => Some (negb showOptions, [])
  | PressOption i =>
      if showOptions then
        match options props !! i with
        | Some o => Some (false, [option_value o])
        | None => None
        end
      else None
  end.

(** The three pickers of the screen. *)
Definition gender_picker (f : FormEntry) : PickerProps :=
  {| label := "Select Gender";
     value := gender f;
     options := [ {| option_label := "Male"; option_value := "Male" |};
                  {| option_label := "Female"; option_value := "Female" |} ] |}.

Definition bmi_picker (f : FormEntry) : PickerProps :=
  {| label := "Select Category";
     value := bmiCategory f;
     options := [ {| option_label := "Underweight"; option_value := "Underweight" |};
                  {| option_label := "Normal"; option_value := "Normal" |};
                  {| option_label := "Overweight"; option_value := "Overweight" |};
                  {| option_label := "Obese"; option_value := "Obese" |} ] |}.

Definition disorder_picker (f : FormEntry) : PickerProps :=
  {| label := "Select Option";
     value := sleepDisorder f;
     options := [ {| option_label := "None"; option_value := "None" |};
                  {| option_label := "Insomnia"; option_value := "Insomnia" |};
                  {| option_label := "Sleep Apnea"; option_value := "Sleep Apnea" |} ] |}.

Definition screen_pickers (f : FormEntry) : list PickerProps :=
  [gender_picker f; bmi_picker f; disorder_picker f].

(** *** The save workflow *)

(** The argument of the success [alert]: its three template literals,
    evaluated in order. *)
Definition success_notice (prediction : JS.Value) : option string :=
  label ← prediction_label prediction;
  percent ← confidence_percent prediction;
  lines ← recommendation_lines prediction;
  Some ("✅ Sleep Quality Prediction: " +:+ label +:+ JS.LF +:+ JS.LF
        +:+ "📊 Confidence: " +:+ percent +:+ "%" +:+ JS.LF +:+ JS.LF
        +:+ "💡 Recommendations:" +:+ JS.LF +:+ bullet +:+ lines).

Definition network_marker : string := "Network request failed".

Definition network_help : string :=
  "Network error: Cannot reach the server." +:+ JS.LF +:+ JS.LF
  +:+ "Solutions:" +:+ JS.LF
  +:+ "1. Check if the Replit server is running" +:+ JS.LF
  +:+ "2. Make sure the API_URL is correct" +:+ JS.LF
  +:+ "3. Try updating the URL in the code".

(** What [errorMessage] starts as. *)
Definition error_head : string := "Error getting prediction." +:+ JS.LF +:+ JS.LF.

(** The [errorMessage] the [catch] block builds. *)
Definition errorMessage (e : Error) : string :=
  let errorMessage := error_head in
  if JS.includes (message e) network_marker then errorMessage +:+ network_help
  else if JS.includes (message e) "Server error" then errorMessage +:+ message e
  else errorMessage +:+ "Details: " +:+ message e.

Definition saveData : Async unit :=
  try_catch
    (form ← read_form;
     if empty_field (age form) || empty_field (gender form) then
       alert validation_notice
     else
       setLoading true;;
       AsyncStorage_setItem "manualEntry" (JS.JSON_stringify (form_object form));;
       console_log "Fetching prediction...";;
       prediction ← getPrediction form;
       setLoading false;;
       notice ← evaluate (success_notice prediction);
       alert notice;;
       navigation_goBack)
    (fun e =>
       setLoading false;;
       console_log "Full error:";;
       alert (errorMessage e)).

End Enhanced.

(** ** The two variants side by side *)

Inductive Variant := baseline | enhanced.

Definition saveData (v : Variant) : Async unit :=
  match v with
  | baseline => Baseline.saveData
  | enhanced => Enhanced.saveData
  end.

Definition success_notice (v : Variant) : JS.Value -> option string :=
  match v with
  | baseline => Baseline.success_notice
  | enhanced => Enhanced.success_notice
  end.

(** The parts of a finished run. *)
Definition outcome_of {A} (r : Outcome A * State * list Event) : Outcome A := fst (fst r).
Definition state_of {A} (r : Outcome A * State * list Event) : State := snd (fst r).
Definition trace_of {A} (r : Outcome A * State * list Event) : list Event := snd r.

(** The text stored by the persistence step. *)
Definition snapshot (f : FormEntry) : string := JS.JSON_stringify (form_object f).

(** Both required fields are filled in. *)
Definition required_filled (f : FormEntry) : Prop :=
  age f ≠ EmptyString ∧ gender f ≠ EmptyString.

(** A failure in the persistence or prediction step: the store rejects the
    write, or the write succeeds and the request is rejected, answered
    with a status outside 200 to 299, or answered with a body that does not
    decode. *)
Definition steps_fail (env : Env) (f : FormEntry) : Prop :=
  (∃ e, setItem_result env "manualEntry" (snapshot f) = Some e)
  ∨ setItem_result env "manualEntry" (snapshot f) = None
    ∧ ((∃ e, fetch_result env (predict_request f) = Rejected e)
       ∨ ∃ r, fetch_result env (predict_request f) = Resolved r
              ∧ (ok r = false ∨ ∃ e, json r = inl e)).

(** The error the enhanced [catch] block receives from a failed step. *)
Definition enhanced_failure (env : Env) (f : FormEntry) (e : Error) : Prop :=
  setItem_result env "manualEntry" (snapshot f) = Some e
  ∨ setItem_result env "manualEntry" (snapshot f) = None
    ∧ (fetch_result env (predict_request f) = Rejected e
       ∨ ∃ r, fetch_result env (predict_request f) = Resolved r
              ∧ (ok r = false
                   ∧ e = {| message :=
                              Enhanced.server_error_message (status r) (text r) |}
                 ∨ ok r = true ∧ json r = inl e)).

(** The decoded body carries the prediction [p]: its [prediction] is the
    label, its [confidence] the Number and its [recommendations] the array
    of the strings, whatever else it holds. *)
Definition carries (data : JS.Value) (p : PredictionResponse) : Prop :=
  JS.Get data "prediction" = Some (JS.VStr (prediction p))
  ∧ JS.Get data "confidence" = Some (JS.VNum (confidence p))
  ∧ JS.Get data "recommendations"
    = Some (JS.VArr (map JS.VStr (recommendations p))).

(** No conversion of [v] to a string or to a number throws: neither [v]
    nor an element of [v], at any depth of arrays, is an object with an
    own [toString]. *)
Fixpoint convertible (v : JS.Value) : bool :=
  match v with
  | JS.VArr items => forallb convertible items
  | JS.VObj members =>
      negb (existsb (fun kv => String.eqb (fst kv) "toString") members)
  | _ => true
  end.

(** The success notice can be composed from the decoded body: its three
    properties can be read (the body is neither [null] nor [undefined]),
    the first two can be converted, and the third is an array whose
    elements can be converted. *)
Definition presentable (data : JS.Value) : bool :=
  match JS.Get data "prediction", JS.Get data "confidence",
        JS.Get data "recommendations" with
  | Some label, Some c, Some (JS.VArr items) =>
      convertible label && convertible c && forallb convertible items
  | _, _, _ => false
  end.



(** The Number [x] (positive and finite: [m * 2^e]) is the integer [n],
    exactly. *)
Definition exact_integer (x : JS.number) (n : Z) : Prop :=
  match x with
  | S754_finite false m e =>
      (Zpos m * 2 ^ Z.max e 0 = n * 2 ^ Z.max (- e) 0)%Z
  | _ => False
  end.



(** ** Sample inputs *)

Module Sample.

Definition entry : FormEntry :=
  {| gender := "Male"; age := "28"; occupation := "Engineer";
     sleepDuration := "7.5"; sleepQuality := "8"; physicalActivity := "42";
     stressLevel := "6"; bmiCategory := "Normal"; bloodPressure := "120/80";
     heartRate := "70"; dailySteps := "4200"; sleepDisorder := "None" |}.

Definition with_age (a : string) (f : FormEntry) : FormEntry :=
  {| gender := gender f; age := a; occupation := occupation f;
     sleepDuration := sleepDuration f; sleepQuality := sleepQuality f;
     physicalActivity := physicalActivity f; stressLevel := stressLevel f;
     bmiCategory := bmiCategory f; bloodPressure := bloodPressure f;
     heartRate := heartRate f; dailySteps := dailySteps f;
     sleepDisorder := sleepDisorder f |}.

Definition with_gender (g : string) (f : FormEntry) : FormEntry :=
  {| gender := g; age := age f; occupation := occupation f;
     sleepDuration := sleepDuration f; sleepQuality := sleepQuality f;
     physicalActivity := physicalActivity f; stressLevel := stressLevel f;
     bmiCategory := bmiCategory f; bloodPressure := bloodPressure f;
     heartRate := heartRate f; dailySteps := dailySteps f;
     sleepDisorder := sleepDisorder f |}.

(** A day without steps, exercise or stress. *)
Definition idle_entry : FormEntry :=
  {| gender := "Female"; age := "35"; occupation := EmptyString;
     sleepDuration := EmptyString; sleepQuality := EmptyString;
     physicalActivity := "0"; stressLevel := "0";
     bmiCategory := EmptyString; bloodPressure := EmptyString;
     heartRate := EmptyString; dailySteps := "0";
     sleepDisorder := EmptyString |}.

Definition screen (f : FormEntry) : State :=
  {| form := f; loading := false; storage := ∅ |}.

Definition good : PredictionResponse :=
  {| prediction := "Good";
     confidence := JS.parseFloat "0.953";
     recommendations := ["Take a walk"; "Reduce stress"] |}.

(** The body that carries a prediction and nothing else. *)
Definition body_of (p : PredictionResponse) : JS.Value :=
  JS.VObj [ ("prediction", JS.VStr (prediction p));
            ("confidence", JS.VNum (confidence p));
            ("recommendations", JS.VArr (map JS.VStr (recommendations p))) ].

(** The text of the sample body. *)
Definition good_text : string :=
  "{" +:+ JS.QuoteJSONString "prediction" +:+ ":" +:+ JS.QuoteJSONString "Good"
  +:+ "," +:+ JS.QuoteJSONString "confidence" +:+ ":0.953"
  +:+ "," +:+ JS.QuoteJSONString "recommendations" +:+ ":["
  +:+ JS.QuoteJSONString "Take a walk" +:+ ","
  +:+ JS.QuoteJSONString "Reduce stress" +:+ "]}".

Definition answer (st : N) (t : string) (j : Error + JS.Value) : Response :=
  {| status := st; text := t; json := j |}.

Definition undecodable : Error + JS.Value :=
  inl {| message := "JSON Parse error: Unexpected token" |}.

(** The TypeError of the sample engine. *)
Definition engine_error : Error :=
  {| message := "Cannot read property 'join' of undefined" |}.

(** The service answers 200 with the sample prediction. *)
Definition online : Env :=
  {| setItem_result := fun _ _ => None;
     fetch_result := fun _ => Resolved (answer 200 good_text (inr (body_of good)));
     type_error := engine_error |}.

(** The device store rejects every write. *)
Definition storage_full : Env :=
  {| setItem_result := fun _ _ => Some {| message := "database or disk is full" |};
     fetch_result := fun _ => Resolved (answer 200 good_text (inr (body_of good)));
     type_error := engine_error |}.

(** The service cannot be reached. *)
Definition offline : Env :=
  {| setItem_result := fun _ _ => None;
     fetch_result := fun _ => Rejected {| message := "Network request failed" |};
     type_error := engine_error |}.

(** The service answers with the given status and body text. *)
Definition answering (st : N) (t : string) : Env :=
  {| setItem_result := fun _ _ => None;
     fetch_result := fun _ => Resolved (answer st t undecodable);
     type_error := engine_error |}.

(** The device store rejects the write with the given description. *)
Definition storage_rejects (msg : string) : Env :=
  {| setItem_result := fun _ _ => Some {| message := msg |};
     fetch_result := fun _ => Resolved (answer 200 good_text (inr (body_of good)));
     type_error := engine_error |}.

(** The service answers 200 with a body that decodes to [data]. *)
Definition decoding (t : string) (data : JS.Value) : Env :=
  {| setItem_result := fun _ _ => None;
     fetch_result := fun _ => Resolved (answer 200 t (inr data));
     type_error := engine_error |}.

End Sample.

(* ================================================================== *)
(** * Part III b.  The rest of the screen                               *)
(* ================================================================== *)

Module Screen.

(** ** Editing the form *)

(** The keys the inputs pass to [handleChange]. *)
Inductive Field :=
| Gender | Age | Occupation | SleepDuration | SleepQuality | PhysicalActivity
| StressLevel | BmiCategory | BloodPressure | HeartRate | DailySteps
| SleepDisorder.

Definition all_fields : list Field :=
  [Gender; Age; Occupation; SleepDuration; SleepQuality; PhysicalActivity;
   StressLevel; BmiCategory; BloodPressure; HeartRate; DailySteps;
   SleepDisorder].

Definition field_name (k : Field) : string :=
  match k with
  | Gender => "gender"
  | Age => "age"
  | Occupation => "occupation"
  | SleepDuration => "sleepDuration"
  | SleepQuality => "sleepQuality"
  | PhysicalActivity => "physicalActivity"
  | StressLevel => "stressLevel"
  | BmiCategory => "bmiCategory"
  | BloodPressure => "bloodPressure"
  | HeartRate => "heartRate"
  | DailySteps => "dailySteps"
  | SleepDisorder => "sleepDisorder"
  end.

(** [form[key]]. *)
Definition get_field (f : FormEntry) (k : Field) : string :=
  match k with
  | Gender => gender f
  | Age => age f
  | Occupation => occupation f
  | SleepDuration => sleepDuration f
  | SleepQuality => sleepQuality f
  | PhysicalActivity => physicalActivity f
  | StressLevel => stressLevel f
  | BmiCategory => bmiCategory f
  | BloodPressure => bloodPressure f
  | HeartRate => heartRate f
  | DailySteps => dailySteps f
  | SleepDisorder => sleepDisorder f
  end.

(** [{ ...form, [key]: value }] on the record. *)
Definition set_field (f : FormEntry) (k : Field) (v : string) : FormEntry :=
  {| gender := match k with Gender => v | _ => gender f end;
     age := match k with Age => v | _ => age f end;
     occupation := match k with Occupation => v | _ => occupation f end;
     sleepDuration := match k with SleepDuration => v | _ => sleepDuration f end;
     sleepQuality := match k with SleepQuality => v | _ => sleepQuality f end;
     physicalActivity :=
       match k with PhysicalActivity => v | _ => physicalActivity f end;
     stressLevel := match k with StressLevel => v | _ => stressLevel f end;
     bmiCategory := match k with BmiCategory => v | _ => bmiCategory f end;
     bloodPressure := match k with BloodPressure => v | _ => bloodPressure f end;
     heartRate := match k with HeartRate => v | _ => heartRate f end;
     dailySteps := match k with DailySteps => v | _ => dailySteps f end;
     sleepDisorder := match k with SleepDisorder => v | _ => sleepDisorder f end |}.

(** [{ ...o, [k]: v }] on an object: an own property keeps its place and
    takes the new value, a new one goes last. *)
Fixpoint spread_with (o : JS.object) (k : string) (v : JS.JsValue) : JS.object :=
  match o with
  | [] => [(k, v)]
  | (k', v') :: r =>
      if String.eqb k' k then (k', v) :: r else (k', v') :: spread_with r k v
  end.

(** [setForm(next)]. *)
Definition setForm (next : FormEntry) : Async unit :=
  fun _ s =>
    (Returned tt,
     {| form := next; loading := loading s; storage := storage s |},
     []).

(** [handleChange(key, value)]: [setForm({ ...form, [key]: value })], where
    [form] is the one the render that created the handler read. *)
Definition handleChange (form : FormEntry) (key : Field) (value : string)
  : Async unit :=
  setForm (set_field form key value).

(** An event on the screen as rendered from the current state: the
    handler it reaches closes over the current [form]. *)
Definition rendered {A} (handler : FormEntry -> Async A) : Async A :=
  fun env s => handler (form s) env s.

(** A change of the field [key] to [value] on the rendered screen. *)
Definition edit (key : Field) (value : string) : Async unit :=
  rendered (fun form => handleChange form key value).

(** ** The save button *)

Record ButtonView := {
  button_text : string;
  button_disabled : bool;
  button_dimmed : bool
}.

(** The [TouchableOpacity] at the foot of the screen. *)
Definition save_button (s : State) : ButtonView :=
  {| button_text := if loading s then "Getting Prediction..." else "Save Entry";
     button_disabled := loading s;
     button_dimmed := loading s |}.

(** A press on the save button: [onPress] runs unless the button is
    disabled. *)
Definition press_save (v : Variant) : Async unit :=
  fun env s =>
    if button_disabled (save_button s) then (Returned tt, s, [])
    else saveData v env s.

(** ** The pickers *)

(** A [Picker.Item] of the baseline variant. *)
Record PickerItem := { item_label : string; item_value : string }.

(** The native pickers of the baseline screen: the field each one edits and
    its items. *)
Definition native_pickers : list (Field * list PickerItem) :=
  [ (Gender,
     [ {| item_label := "Select Gender"; item_value := EmptyString |};
       {| item_label := "Male"; item_value := "Male" |};
       {| item_label := "Female"; item_value := "Female" |} ]);
    (BmiCategory,
     [ {| item_label := "Select Category"; item_value := EmptyString |};
       {| item_label := "Underweight"; item_value := "Underweight" |};
       {| item_label := "Normal"; item_value := "Normal" |};
       {| item_label := "Overweight"; item_value := "Overweight" |};
       {| item_label := "Obese"; item_value := "Obese" |} ]);
    (SleepDisorder,
     [ {| item_label := "Select Option"; item_value := EmptyString |};
       {| item_label := "None"; item_value := "None" |};
       {| item_label := "Insomnia"; item_value := "Insomnia" |};
       {| item_label := "Sleep Apnea"; item_value := "Sleep Apnea" |} ]) ].

(** Choosing the item at [i] of a native picker: [onValueChange] passes its
    value to [handleChange]. *)
Definition choose_item (key : Field) (items : list PickerItem) (i : nat)
  : Async unit :=
  match items !! i with
  | Some it => edit key (item_value it)
  | None => mret tt
  end.

(** The picker buttons of the enhanced screen: the field each one edits
    and its props. *)
Definition picker_buttons (f : FormEntry) : list (Field * Enhanced.PickerProps) :=
  [ (Gender, Enhanced.gender_picker f);
    (BmiCategory, Enhanced.bmi_picker f);
    (SleepDisorder, Enhanced.disorder_picker f) ].

(** The calls of [onSelect], each passed on to [handleChange]; each comes
    from a press of its own, on the screen as rendered by then. *)
Fixpoint on_select (key : Field) (calls : list string) : Async unit :=
  match calls with
  | [] => mret tt
  | v :: r => edit key v;; on_select key r
  end.

(** A run of presses on one picker button, from the given [showOptions]:
    where it ends and what [onSelect] was called with, or nothing when a
    press falls on a row that is not rendered. *)
Fixpoint press_all (props : Enhanced.PickerProps) (showOptions : bool)
    (ps : list Enhanced.Press) : option (bool * list string) :=
  match ps with
  | [] => Some (showOptions, [])
  | p :: r =>
      match Enhanced.press props showOptions p with
      | Some (st, calls) =>
          match press_all props st r with
          | Some (st', calls') => Some (st', (calls ++ calls')%list)
          | None => None
          end
      | None => None
      end
  end.

(** ** The inputs of the screen *)

(** What an input is rendered with: a [TextInput] (with a numeric keyboard
    or not, and its placeholder) or a selection control (the native
    [Picker] in the baseline variant, [PickerButton] in the enhanced
    one). *)
Inductive Control :=
| TextInput (numeric : bool) (placeholder : string)
| Select.

(** An input: its caption, the field whose value it shows, the key its
    change handler passes to [handleChange], and its control. *)
Record Input := {
  caption : string;
  shows : Field;
  writes : Field;
  control : Control
}.

(** The inputs in the order both variants render them. *)
Definition inputs : list Input :=
  [ {| caption := "Gender"; shows := Gender; writes := Gender; control := Select |};
    {| caption := "Age"; shows := Age; writes := Age;
       control := TextInput true "Enter age" |};
    {| caption := "Occupation"; shows := Occupation; writes := Occupation;
       control := TextInput false "e.g., Engineer, Student" |};
    {| caption := "Sleep Duration (hours)"; shows := SleepDuration;
       writes := SleepDuration; control := TextInput true "e.g., 7.5" |};
    {| caption := "Quality of Sleep (1-10)"; shows := SleepQuality;
       writes := SleepQuality; control := TextInput true "Rate sleep quality" |};
    {| caption := "Physical Activity (minutes/day)"; shows := PhysicalActivity;
       writes := PhysicalActivity; control := TextInput true "e.g., 30" |};
    {| caption := "Stress Level (1-10)"; shows := StressLevel;
       writes := StressLevel; control := TextInput true "Rate stress level" |};
    {| caption := "BMI Category"; shows := BmiCategory; writes := BmiCategory;
       control := Select |};
    {| caption := "Blood Pressure (systolic/diastolic)"; shows := BloodPressure;
       writes := BloodPressure; control := TextInput false "e.g., 120/80" |};
    {| caption := "Heart Rate (bpm)"; shows := HeartRate; writes := HeartRate;
       control := TextInput true "e.g., 70" |};
    {| caption := "Daily Steps"; shows := DailySteps; writes := DailySteps;
       control := TextInput true "e.g., 5000" |};
    {| caption := "Sleep Disorder"; shows := SleepDisorder;
       writes := SleepDisorder; control := Select |} ].

(** What an input shows: [value={form.<field>}]. *)
Definition shown (s : State) (i : Input) : string := get_field (form s) (shows i).

(** A change of an input to [t]: its handler calls [handleChange]. *)
Definition change_input (i : Input) (t : string) : Async unit :=
  edit (writes i) t.

(** ** The discipline of the loading flag *)

(** Whether a trace makes its writes and requests only while the loading
    flag is set, and shows its notices and navigates only while it is
    clear; [flag] is the flag when the trace starts. *)
Fixpoint disciplined (flag : bool) (t : list Event) : bool :=
  match t with
  | [] => true
  | SetLoading b :: r => disciplined b r
  | (SetItem _ _ | Fetch _) :: r => flag && disciplined flag r
  | (Alert _ | GoBack) :: r => negb flag && disciplined flag r
  | (ConsoleLog _ | ConsoleError _) :: r => disciplined flag r
  end.

(** A prediction is obtained: the required fields are filled in, the store
    accepts the write, and the service answers with a success status and
    a body that decodes, to [data]. *)
Definition prediction_obtained (env : Env) (f : FormEntry) (data : JS.Value)
  : Prop :=
  required_filled f
  ∧ setItem_result env "manualEntry" (snapshot f) = None
  ∧ ∃ r, fetch_result env (predict_request f) = Resolved r
         ∧ ok r = true ∧ json r = inr data.

End Screen.

(** ** Reading a snapshot back

    The screen never reads the stored snapshot; the reader below inverts
    [QuoteJSONString] and the layout of [JSON.stringify(form)], and serves
    to show that the snapshot keeps every field. *)

Module Reader.

(** The character an escape letter stands for. *)
Definition unescape (c : ascii) : option ascii :=
  let n := JS.code c in
  if (n =? 98)%N then Some (ascii_of_N 8)
  else if (n =? 116)%N then Some (ascii_of_N 9)
  else if (n =? 110)%N then Some (ascii_of_N 10)
  else if (n =? 102)%N then Some (ascii_of_N 12)
  else if (n =? 114)%N then Some (ascii_of_N 13)
  else if (n =? 34)%N then Some c
  else if (n =? 92)%N then Some c
  else None.

Definition hex_of (c : ascii) : option N :=
  match JS.hex_value c with
  | Some v => Some (Z.to_N v)
  | None => None
  end.

(** The characters up to the closing quote, unescaped, and what follows
    the quote. *)
Fixpoint read_chars (s : string) : option (string * string) :=
  match s with
  | EmptyString => None
  | String c r =>
      if (JS.code c =? 34)%N then Some (EmptyString, r)
      else if (JS.code c =? 92)%N then
        match r with
        | String e r1 =>
            if (JS.code e =? 117)%N then
              match r1 with
              | String _ (String _ (String h1 (String h2 r2))) =>
                  match hex_of h1, hex_of h2, read_chars r2 with
                  | Some a, Some b, Some (t, rest) =>
                      Some (String (ascii_of_N (16 * a + b)) t, rest)
                  | _, _, _ => None
                  end
              | _ => None
              end
            else
              match unescape e, read_chars r1 with
              | Some d, Some (t, rest) => Some (String d t, rest)
              | _, _ => None
              end
        | EmptyString => None
        end
      else
        match read_chars r with
        | Some (t, rest) => Some (String c t, rest)
        | None => None
        end
  end.

(** A quoted string at the head of [s]. *)
Definition read_quoted (s : string) : option (string * string) :=
  match s with
  | String c r => if (JS.code c =? 34)%N then read_chars r else None
  | EmptyString => None
  end.

(** [s] without the leading [lit]. *)
Fixpoint expect (lit s : string) : option string :=
  match lit with
  | EmptyString => Some s
  | String a lit' =>
      match s with
      | String b s' => if Ascii.eqb a b then expect lit' s' else None
      | EmptyString => None
      end
  end.

(** One member [<sep>"key":"value"] at the head of [s]. *)
Definition read_member (sep : string) (k : Screen.Field) (s : string)
  : option (string * string) :=
  match expect (sep +:+ JS.QuoteJSONString (Screen.field_name k) +:+ ":") s with
  | Some r => read_quoted r
  | None => None
  end.

(** The members of a snapshot, in the order of the form's keys. *)
Fixpoint read_members (sep : string) (ks : list Screen.Field) (s : string)
  : option (list string * string) :=
  match ks with
  | [] => Some ([], s)
  | k :: ks' =>
      match read_member sep k s with
      | Some (v, r) =>
          match read_members "," ks' r with
          | Some (vs, r') => Some (v :: vs, r')
          | None => None
          end
      | None => None
      end
  end.

Definition read_snapshot (s : string) : option FormEntry :=
  match read_members "{" Screen.all_fields s with
  | Some ([g; a; o; sd; sq; pa; sl; bc; bp; hr; ds; so], "}") =>
      Some {| gender := g; age := a; occupation := o; sleepDuration := sd;
              sleepQuality := sq; physicalActivity := pa; stressLevel := sl;
              bmiCategory := bc; bloodPressure := bp; heartRate := hr;
              dailySteps := ds; sleepDisorder := so |}
  | _ => None
  end.

(** How [JSON.stringify] writes one property. *)
Definition member_text (kv : string * JS.JsValue) : string :=
  JS.QuoteJSONString (fst kv) +:+ ":" +:+ JS.JSON_value (snd kv).

End Reader.

(* ================================================================== *)
(** * Part IV.  Properties                                              *)
(* ================================================================== *)

Arguments JS.JSON_stringify : simpl never.
Arguments snapshot : simpl never.
Arguments predict_request : simpl never.
Arguments request_object : simpl never.
Arguments Baseline.success_notice : simpl never.
Arguments Enhanced.success_notice : simpl never.
Arguments Enhanced.errorMessage : simpl never.
Arguments Enhanced.server_error_message : simpl never.

(** ** The built-ins on sample values *)

Example parseFloat_samples :
  map (fun s => JS.Number_toString (JS.parseFloat s))
    ["4200"; "  42.5 min"; ".5"; "5."; "1e3"; "1e"; "-Infinity"; "0.953";
     "abc"; "."; "- 5"; "0x10"; "1e-400"]
  = ["4200"; "42.5"; "0.5"; "5"; "1000"; "1"; "-Infinity"; "0.953";
     "NaN"; "NaN"; "NaN"; "0"; "0"].
Proof. vm_compute. reflexivity. Qed.

Example parseInt_samples :
  map (fun s => JS.Number_toString (JS.parseInt s))
    ["28"; " 42px"; "3.9"; "1e3"; "0x1F"; "-0x10"; "abc"; " "; "-"; "0x"]
  = ["28"; "42"; "3"; "1"; "31"; "-16"; "NaN"; "NaN"; "NaN"; "NaN"].
Proof. vm_compute. reflexivity. Qed.

Example toFixed_samples :
  map (fun s => JS.toFixed (JS.parseFloat s) 1)
    ["95.3"; "1.25"; "1.35"; "-0.01"; "0"; "100"; "0.05"; "1e21"; "x"]
  = ["95.3"; "1.3"; "1.4"; "-0.0"; "0.0"; "100.0"; "0.1"; "1e+21"; "NaN"].
Proof. vm_compute. reflexivity. Qed.

Example Number_toString_samples :
  map (fun s => JS.Number_toString (JS.parseFloat s))
    ["0.1"; "1e21"; "1e-7"; "0.000001"; "123456789012345678901"; "5e-324";
     "1.7976931348623157e308"; "-0"]
  = ["0.1"; "1e+21"; "1e-7"; "0.000001"; "123456789012345680000"; "5e-324";
     "1.7976931348623157e+308"; "0"].
Proof. vm_compute. reflexivity. Qed.

(** The request derived from the sample entry. *)
Example request_object_sample :
  request_object Sample.entry
  = [ ("age", JS.Num (JS.Number_of_Z 28));
      ("gender", JS.Str "Male");
      ("daily_steps", JS.Num (JS.Number_of_Z 4200));
      ("physical_activity_minutes", JS.Num (JS.Number_of_Z 42));
      ("stress_level", JS.Num (JS.Number_of_Z 6));
      ("bmi_category", JS.Str "Normal") ].
Proof. vm_compute. reflexivity. Qed.

(** With every optional field left empty, the four optional request fields
    are [null] and the age and the gender are still there. *)
Example request_object_optional_empty :
  request_object
    {| gender := "Female"; age := "41"; occupation := EmptyString;
       sleepDuration := EmptyString; sleepQuality := EmptyString;
       physicalActivity := EmptyString; stressLevel := EmptyString;
       bmiCategory := EmptyString; bloodPressure := EmptyString;
       heartRate := EmptyString; dailySteps := EmptyString;
       sleepDisorder := EmptyString |}
  = [ ("age", JS.Num (JS.Number_of_Z 41));
      ("gender", JS.Str "Female");
      ("daily_steps", JS.Null);
      ("physical_activity_minutes", JS.Null);
      ("stress_level", JS.Null);
      ("bmi_category", JS.Null) ].
Proof. vm_compute. reflexivity. Qed.

(** ** Running the workflow *)

Lemma empty_field_false s : s ≠ EmptyString -> empty_field s = false.
Proof. destruct s; [congruence | reflexivity]. Qed.

Lemma empty_field_true s : s = EmptyString -> empty_field s = true.
Proof. intros ->. reflexivity. Qed.

Lemma guard_open f :
  required_filled f -> empty_field (age f) || empty_field (gender f) = false.
Proof. intros [Ha Hg]. now rewrite !empty_field_false. Qed.

Lemma guard_closed f :
  age f = EmptyString ∨ gender f = EmptyString ->
  empty_field (age f) || empty_field (gender f) = true.
Proof.
  intros [H | H]; rewrite (empty_field_true _ H); [reflexivity | apply orb_true_r].
Qed.

Ltac unfold_async :=
  unfold saveData, Baseline.saveData, Enhanced.saveData,
    Baseline.getPrediction, Enhanced.getPrediction,
    try_catch, read_form, alert, console_log, console_error,
    navigation_goBack, emit, setLoading, AsyncStorage_setItem, fetch,
    response_json, response_text, evaluate, throw, mbind, mret,
    Async_bind, Async_ret;
  fold snapshot; cbn.

(** With a required field missing the workflow only shows the notice. *)
Lemma saveData_guarded v env s :
  age (form s) = EmptyString ∨ gender (form s) = EmptyString ->
  saveData v env s = (Returned tt, s, [Alert validation_notice]).
Proof.
  intros H. destruct v; unfold_async; fold snapshot;
    rewrite (guard_closed _ H); reflexivity.
Qed.

(** The baseline workflow past the guard, by what the environment does. *)
Lemma Baseline_saveData_run env s :
  required_filled (form s) ->
  Baseline.saveData env s =
  let f := form s in
  let kept := {| form := f; loading := false; storage := storage s |} in
  let saved := {| form := f; loading := false;
                  storage := <["manualEntry" := snapshot f]> (storage s) |} in
  let failed e := [SetLoading false; ConsoleLog (message e);
                   Alert Baseline.failure_notice] in
  let upto_fetch := [SetLoading true; SetItem "manualEntry" (snapshot f);
                     Fetch (predict_request f)] in
  match setItem_result env "manualEntry" (snapshot f) with
  | Some e =>
      (Returned tt, kept,
       [SetLoading true; SetItem "manualEntry" (snapshot f)] ++ failed e)%list
  | None =>
      match fetch_result env (predict_request f) with
      | Rejected e =>
          (Returned tt, saved,
           upto_fetch ++ [ConsoleError "API Error:"] ++ failed e)%list
      | Resolved r =>
          if ok r then
            match json r with
            | inl e =>
                (Returned tt, saved,
                 upto_fetch ++ [ConsoleError "API Error:"] ++ failed e)%list
            | inr data =>
                match Baseline.success_notice data with
                | Some notice =>
                    (Returned tt, saved,
                     upto_fetch ++ [SetLoading false; Alert notice; GoBack])%list
                | None =>
                    (Returned tt, saved,
                     upto_fetch ++ [SetLoading false] ++ failed (type_error env))%list
                end
            end
          else
            (Returned tt, saved,
             upto_fetch ++ [ConsoleError "API Error:"]
               ++ failed {| message := "Failed to get prediction" |})%list
      end
  end.
Proof.
  intros H. unfold_async. rewrite (guard_open _ H). cbn.
  destruct (setItem_result env _ _); cbn; [reflexivity |].
  destruct (fetch_result env _) as [e | r]; cbn; [reflexivity |].
  destruct (ok r); cbn; [| reflexivity].
  destruct (json r) as [e | data]; cbn; [reflexivity |].
  destruct (Baseline.success_notice data); reflexivity.
Qed.

(** The enhanced workflow past the guard, by what the environment does. *)
Lemma Enhanced_saveData_run env s :
  required_filled (form s) ->
  Enhanced.saveData env s =
  let f := form s in
  let kept := {| form := f; loading := false; storage := storage s |} in
  let saved := {| form := f; loading := false;
                  storage := <["manualEntry" := snapshot f]> (storage s) |} in
  let failed e := [SetLoading false; ConsoleLog "Full error:";
                   Alert (Enhanced.errorMessage e)] in
  let rethrown := [ConsoleError "API Error Details:";
                   ConsoleError "Error message:"] in
  let upto_fetch := [SetLoading true; SetItem "manualEntry" (snapshot f);
                     ConsoleLog "Fetching prediction...";
                     ConsoleLog "Sending request to:";
                     ConsoleLog "Request data:";
                     Fetch (predict_request f)] in
  match setItem_result env "manualEntry" (snapshot f) with
  | Some e =>
      (Returned tt, kept,
       [SetLoading true; SetItem "manualEntry" (snapshot f)] ++ failed e)%list
  | None =>
      match fetch_result env (predict_request f) with
      | Rejected e => (Returned tt, saved, upto_fetch ++ rethrown ++ failed e)%list
      | Resolved r =>
          if ok r then
            match json r with
            | inl e =>
                (Returned tt, saved,
                 upto_fetch ++ [ConsoleLog "Response status:"]
                   ++ rethrown ++ failed e)%list
            | inr data =>
                match Enhanced.success_notice data with
                | Some notice =>
                    (Returned tt, saved,
                     upto_fetch ++ [ConsoleLog "Response status:";
                                    ConsoleLog "Success! Response:";
                                    SetLoading false; Alert notice; GoBack])%list
                | None =>
                    (Returned tt, saved,
                     upto_fetch ++ [ConsoleLog "Response status:";
                                    ConsoleLog "Success! Response:";
                                    SetLoading false]
                       ++ failed (type_error env))%list
                end
            end
          else
            (Returned tt, saved,
             upto_fetch ++ [ConsoleLog "Response status:";
                            ConsoleLog "Error response:"]
               ++ rethrown
               ++ failed {| message :=
                              Enhanced.server_error_message (status r) (text r) |})%list
      end
  end.
Proof.
  intros H. unfold_async. rewrite (guard_open _ H). cbn.
  destruct (setItem_result env _ _); cbn; [reflexivity |].
  destruct (fetch_result env _) as [e | r]; cbn; [reflexivity |].
  destruct (ok r); cbn; [| reflexivity].
  destruct (json r) as [e | data]; cbn; [reflexivity |].
  destruct (Enhanced.success_notice data); reflexivity.
Qed.

Ltac run_workflow v H :=
  destruct v;
  [ rewrite (Baseline_saveData_run _ _ H) | rewrite (Enhanced_saveData_run _ _ H) ];
  cbv zeta.

(** The cases of a run: the write is rejected; the request is rejected;
    the answer is a success that does not decode, or decodes to a value
    the notice can be composed from, or not; the answer is an error. *)
Ltac split_notice :=
  repeat match goal with
         | |- context [Baseline.success_notice ?d] =>
             destruct (Baseline.success_notice d) as [? |] eqn:?
         | |- context [Enhanced.success_notice ?d] =>
             destruct (Enhanced.success_notice d) as [? |] eqn:?
         end.

Ltac split_env :=
  match goal with
  | |- context [setItem_result ?env ?k ?i] =>
      destruct (setItem_result env k i) as [? |] eqn:?
  end;
  [ | match goal with
      | |- context [fetch_result ?env ?q] =>
          destruct (fetch_result env q) as [? | ?] eqn:?
      end;
      [ | match goal with
          | |- context [ok ?r] => destruct (ok r) eqn:?
          end;
          [ match goal with
            | |- context [json ?r] => destruct (json r) as [? | ?] eqn:?
            end;
            [ | split_notice ] | ] ] ].

(** ** The required-field guard *)

(** C2. When the age or the gender is the empty string, saving (in either
    variant) shows the notice "Please fill in at least Age and Gender" and
    stops there: no write to the store, no request, no update of the
    loading flag, and the state is left as it was. *)
Theorem C2_missing_required_field_aborts (v : Variant) (env : Env) (s : State) :
  age (form s) = EmptyString ∨ gender (form s) = EmptyString ->
  let r := saveData v env s in
  alerts (trace_of r) = ["Please fill in at least Age and Gender"]
  ∧ writes (trace_of r) = []
  ∧ requests (trace_of r) = []
  ∧ loading_updates (trace_of r) = []
  ∧ state_of r = s.
Proof.
  intros H r. subst r. rewrite (saveData_guarded _ _ _ H).
  repeat split.
Qed.

Lemma C2_witness :
  let s := Sample.screen (Sample.with_gender EmptyString Sample.entry) in
  (age (form s) = EmptyString ∨ gender (form s) = EmptyString)
  ∧ let r := saveData enhanced Sample.online s in
    alerts (trace_of r) = ["Please fill in at least Age and Gender"]
    ∧ writes (trace_of r) = []
    ∧ requests (trace_of r) = []
    ∧ loading_updates (trace_of r) = []
    ∧ state_of r = s.
Proof.
  assert (H : age (form (Sample.screen (Sample.with_gender EmptyString Sample.entry)))
                = EmptyString
              ∨ gender (form (Sample.screen (Sample.with_gender EmptyString Sample.entry)))
                = EmptyString) by (right; reflexivity).
  split; [exact H |].
  exact (C2_missing_required_field_aborts enhanced Sample.online _ H).
Defined.

(** ** One write, then one request *)

(** C3, as the code has it.  With the age and the gender filled in, one
    save makes exactly one write, of the serialized form under the key
    "manualEntry".  When the store accepts it, the write is followed by
    exactly one POST of the derived request and nothing else reaches the
    store or the network; when the store rejects it, no request is made. *)
Theorem C3_one_write_then_one_request (v : Variant) (env : Env) (s : State) :
  required_filled (form s) ->
  let t := trace_of (saveData v env s) in
  let item := JS.JSON_stringify (form_object (form s)) in
  writes t = [("manualEntry", item)]
  ∧ (setItem_result env "manualEntry" item = None ->
       io_events t = [SetItem "manualEntry" item; Fetch (predict_request (form s))]
       ∧ method (predict_request (form s)) = "POST")
  ∧ (∀ e, setItem_result env "manualEntry" item = Some e -> requests t = []).
Proof.
  intros H t item. subst t item. fold (snapshot (form s)).
  run_workflow v H; split_env; cbn;
    repeat split; try congruence; intros; congruence.
Qed.

Lemma C3_witness :
  required_filled (form (Sample.screen Sample.entry))
  ∧ let t := trace_of (saveData baseline Sample.online (Sample.screen Sample.entry)) in
    let item := JS.JSON_stringify (form_object Sample.entry) in
    writes t = [("manualEntry", item)]
    ∧ (setItem_result Sample.online "manualEntry" item = None ->
         io_events t = [SetItem "manualEntry" item; Fetch (predict_request Sample.entry)]
         ∧ method (predict_request Sample.entry) = "POST")
    ∧ (∀ e, setItem_result Sample.online "manualEntry" item = Some e -> requests t = []).
Proof.
  assert (H : required_filled (form (Sample.screen Sample.entry)))
    by (split; discriminate).
  split; [exact H |].
  exact (C3_one_write_then_one_request baseline Sample.online
           (Sample.screen Sample.entry) H).
Defined.

(** C3 as stated fails: with the age and the gender filled in and a store
    that rejects the write, the save makes its one write and no request. *)
Lemma C3_counterexample :
  let t := trace_of (saveData baseline Sample.storage_full (Sample.screen Sample.entry)) in
  required_filled Sample.entry
  ∧ length (writes t) = 1
  ∧ length (requests t) = 0.
Proof. vm_compute. repeat split; discriminate. Qed.

(** ** Failures *)

Lemma Enhanced_errorMessage_prefix e :
  String.prefix "Error getting prediction." (Enhanced.errorMessage e) = true.
Proof.
  unfold Enhanced.errorMessage.
  destruct (JS.includes (message e) Enhanced.network_marker); [reflexivity |].
  destruct (JS.includes (message e) "Server error"); reflexivity.
Qed.

(** C4. When the age and the gender are filled in and the persistence or
    the prediction step fails, the save (in either variant) ends with the
    loading flag false, exactly one notice (an error notice), no
    navigation and the form as it was; the snapshot written by a
    successful persistence step is still stored under "manualEntry", and
    a rejected write leaves the store as it was. *)
Theorem C4_failure_handling (v : Variant) (env : Env) (s : State) :
  required_filled (form s) ->
  steps_fail env (form s) ->
  let r := saveData v env s in
  let item := JS.JSON_stringify (form_object (form s)) in
  loading (state_of r) = false
  ∧ (∃ msg, alerts (trace_of r) = [msg]
            ∧ String.prefix "Error getting prediction." msg = true)
  ∧ navigations (trace_of r) = 0
  ∧ form (state_of r) = form s
  ∧ (setItem_result env "manualEntry" item = None ->
       storage (state_of r) !! "manualEntry" = Some item)
  ∧ ((∃ e, setItem_result env "manualEntry" item = Some e) ->
       storage (state_of r) = storage s).
Proof.
  intros H F r item. subst r item. fold (snapshot (form s)).
  pose proof Enhanced_errorMessage_prefix as P.
  unfold steps_fail in F.
  run_workflow v H; split_env; cbn;
    try (exfalso;
         destruct F as [[? F] | [_ [[? F] | [? [F [F' | [? F']]]]]]];
         congruence);
    (split; [reflexivity |]);
    (split; [eexists; split; [reflexivity | first [reflexivity | apply P]] |]);
    (split; [reflexivity |]);
    (split; [reflexivity |]);
    (split; [ intros; first [congruence | apply lookup_insert_eq]
            | intros [? ?]; first [congruence | reflexivity] ]).
Qed.

Lemma C4_witness :
  let s := Sample.screen Sample.entry in
  required_filled (form s)
  ∧ steps_fail (Sample.answering 500 "internal error") (form s)
  ∧ let r := saveData enhanced (Sample.answering 500 "internal error") s in
    let item := JS.JSON_stringify (form_object (form s)) in
    loading (state_of r) = false
    ∧ (∃ msg, alerts (trace_of r) = [msg]
              ∧ String.prefix "Error getting prediction." msg = true)
    ∧ navigations (trace_of r) = 0
    ∧ form (state_of r) = form s
    ∧ (setItem_result (Sample.answering 500 "internal error") "manualEntry" item = None ->
         storage (state_of r) !! "manualEntry" = Some item)
    ∧ ((∃ e, setItem_result (Sample.answering 500 "internal error") "manualEntry" item
               = Some e) ->
         storage (state_of r) = storage s).
Proof.
  assert (H : required_filled (form (Sample.screen Sample.entry)))
    by (split; discriminate).
  assert (F : steps_fail (Sample.answering 500 "internal error")
                (form (Sample.screen Sample.entry))).
  { right. split; [reflexivity |]. right. eexists. split; [reflexivity |].
    left. reflexivity. }
  split; [exact H |]. split; [exact F |].
  exact (C4_failure_handling enhanced (Sample.answering 500 "internal error")
           (Sample.screen Sample.entry) H F).
Defined.

(** ** The derived request *)

Lemma parseFloat_empty : JS.parseFloat EmptyString = JS.NaN.
Proof. reflexivity. Qed.

(** What [parseFloat(s) || null] yields: [null] exactly when the parse is
    [NaN] or a zero, and the parsed Number otherwise. *)
Lemma optional_number_absent_iff s :
  JS.or_else (JS.Num (JS.parseFloat s)) JS.Null = JS.Null
  ↔ JS.is_NaN (JS.parseFloat s) = true ∨ JS.is_zero (JS.parseFloat s) = true.
Proof.
  unfold JS.or_else, JS.ToBoolean.
  destruct (JS.parseFloat s); cbn; split; intros H;
    try discriminate; try reflexivity; auto;
    destruct H; discriminate.
Qed.

Lemma optional_number_present s :
  JS.is_NaN (JS.parseFloat s) = false ->
  JS.is_zero (JS.parseFloat s) = false ->
  JS.or_else (JS.Num (JS.parseFloat s)) JS.Null = JS.Num (JS.parseFloat s).
Proof.
  unfold JS.or_else, JS.ToBoolean. intros -> ->. reflexivity.
Qed.

(** An empty or unparsable source string is sent as [null]. *)
Lemma optional_number_unparsable s :
  JS.is_NaN (JS.parseFloat s) = true ->
  JS.or_else (JS.Num (JS.parseFloat s)) JS.Null = JS.Null.
Proof. intros H. apply optional_number_absent_iff. now left. Qed.

(** C1, at an input where the code departs from it.  For an entry whose
    daily steps, activity minutes and stress level are all "0", each
    source string parses as a number (zero, not [NaN]), and yet each of
    the three request fields is [null], in the request object and in the
    body that is posted. *)
Theorem C1_zero_is_sent_as_absent :
  let f := Sample.idle_entry in
  let absent k := JS.get (request_object f) k = Some JS.Null in
  let posted k :=
    JS.includes (body (predict_request f))
      (JS.DQUOTE +:+ k +:+ JS.DQUOTE +:+ ":null") = true in
  (dailySteps f = "0" ∧ physicalActivity f = "0" ∧ stressLevel f = "0")
  ∧ JS.parseFloat "0" = S754_zero false
  ∧ JS.is_NaN (JS.parseFloat "0") = false
  ∧ (absent "daily_steps" ∧ absent "physical_activity_minutes"
     ∧ absent "stress_level")
  ∧ (posted "daily_steps" ∧ posted "physical_activity_minutes"
     ∧ posted "stress_level").
Proof. vm_compute. repeat split. Qed.

(** ** The picker button *)

(** C7, as the code has it.  In every render the arrow is shown; the
    header shows the current value itself, in the selected style, when the
    value is not empty, and the placeholder label, in the muted style,
    when it is.  For the three pickers of the screen every option has a
    label equal to its value, so there the header shows the label of the
    option whose value is selected. *)
Theorem C7_header_shows_value (props : Enhanced.PickerProps) (showOptions : bool) :
  let view := Enhanced.PickerButton props showOptions in
  Enhanced.arrow view = "▼"
  ∧ (Enhanced.value props ≠ EmptyString ->
       Enhanced.header_text view = Enhanced.value props
       ∧ Enhanced.header_style view = Enhanced.pickerButtonTextSelected)
  ∧ (Enhanced.value props = EmptyString ->
       Enhanced.header_text view = Enhanced.label props
       ∧ Enhanced.header_style view = Enhanced.pickerButtonText)
  ∧ (∀ f o, In props (Enhanced.screen_pickers f) ->
            In o (Enhanced.options props) ->
            Enhanced.option_value o = Enhanced.value props ->
            Enhanced.header_text view = Enhanced.option_label o).
Proof.
  cbn. split; [reflexivity |]. split; [| split].
  - intros H. destruct (Enhanced.value props); [congruence | split; reflexivity].
  - intros ->. split; reflexivity.
  - intros f o Hp Ho Hv.
    destruct Hp as [<- | [<- | [<- | []]]]; cbn in *;
      repeat (destruct Ho as [<- | Ho]; [cbn in *; rewrite <- Hv; reflexivity |]);
      destruct Ho.
Qed.

Lemma C7_witness :
  let props := Enhanced.gender_picker Sample.entry in
  let o := {| Enhanced.option_label := "Male"; Enhanced.option_value := "Male" |} in
  Enhanced.value props ≠ EmptyString
  ∧ Enhanced.header_text (Enhanced.PickerButton props false) = Enhanced.value props
  ∧ Enhanced.header_text (Enhanced.PickerButton props false) = Enhanced.option_label o.
Proof.
  pose proof (C7_header_shows_value (Enhanced.gender_picker Sample.entry) false)
    as (_ & Hsel & _ & Hlab).
  assert (Hv : Enhanced.value (Enhanced.gender_picker Sample.entry) ≠ EmptyString)
    by discriminate.
  split; [exact Hv |]. split; [exact (proj1 (Hsel Hv)) |].
  apply (Hlab Sample.entry); [left; reflexivity | left; reflexivity | reflexivity].
Defined.

(** C7 as stated fails: with an option labelled "Male" whose value is "M"
    selected, the header shows "M", not the label of the selected option. *)
Lemma C7_counterexample :
  let male := {| Enhanced.option_label := "Male"; Enhanced.option_value := "M" |} in
  let female := {| Enhanced.option_label := "Female"; Enhanced.option_value := "F" |} in
  let props := {| Enhanced.label := "Select Gender"; Enhanced.value := "M";
                  Enhanced.options := [male; female] |} in
  Enhanced.option_value male = Enhanced.value props
  ∧ Enhanced.header_text (Enhanced.PickerButton props false) = "M"
  ∧ Enhanced.header_text (Enhanced.PickerButton props false)
      ≠ Enhanced.option_label male.
Proof. cbn. repeat split. discriminate. Qed.

(** C8. The picker starts collapsed and shows no rows then.  A press on
    the header while collapsed opens it, calling nothing, and the open
    picker renders one row per option, in the order supplied; a press on
    the header while open closes it, calling nothing; a press on a row
    calls [onSelect] once, with the value of that row's option, and closes
    the picker. *)
Theorem C8_picker_state_machine (props : Enhanced.PickerProps) :
  Enhanced.showOptions_initial = false
  ∧ Enhanced.rows (Enhanced.PickerButton props false) = None
  ∧ Enhanced.press props false Enhanced.PressHeader = Some (true, [])
  ∧ Enhanced.rows (Enhanced.PickerButton props true)
      = Some (map Enhanced.option_label (Enhanced.options props))
  ∧ Enhanced.press props true Enhanced.PressHeader = Some (false, [])
  ∧ (∀ i o, Enhanced.options props !! i = Some o ->
            Enhanced.press props true (Enhanced.PressOption i)
              = Some (false, [Enhanced.option_value o]))
  ∧ (∀ i, Enhanced.press props false (Enhanced.PressOption i) = None).
Proof.
  repeat split; try reflexivity.
  intros i o H. cbn. rewrite H. reflexivity.
Qed.

Lemma C8_witness :
  let props := Enhanced.bmi_picker Sample.entry in
  Enhanced.options props !! 2
    = Some {| Enhanced.option_label := "Overweight";
              Enhanced.option_value := "Overweight" |}
  ∧ Enhanced.press props true (Enhanced.PressOption 2) = Some (false, ["Overweight"]).
Proof.
  pose proof (C8_picker_state_machine (Enhanced.bmi_picker Sample.entry))
    as (_ & _ & _ & _ & _ & Hrow & _).
  split; [reflexivity |].
  exact (Hrow 2 _ eq_refl).
Defined.

(** ** An age that does not parse, or is blank *)

Lemma is_NaN_eq x : JS.is_NaN x = true -> x = JS.NaN.
Proof. destruct x; (discriminate || reflexivity). Qed.

(** C9, as the code has it.  When the age is not empty and [parseInt]
    gives [NaN] for it, the gender is not empty and the store accepts the
    write, the save (in either variant) issues its one request all the
    same: nothing checks the parse.  The request object carries the [NaN]
    itself as its age, and the JSON encoding of the body writes it as
    [null]. *)
Theorem C9_unparsable_age_is_sent (v : Variant) (env : Env) (s : State) :
  age (form s) ≠ EmptyString ->
  JS.is_NaN (JS.parseInt (age (form s))) = true ->
  gender (form s) ≠ EmptyString ->
  setItem_result env "manualEntry" (JS.JSON_stringify (form_object (form s))) = None ->
  let t := trace_of (saveData v env s) in
  requests t = [predict_request (form s)]
  ∧ body (predict_request (form s)) = JS.JSON_stringify (request_object (form s))
  ∧ JS.get (request_object (form s)) "age" = Some (JS.Num JS.NaN)
  ∧ JS.JSON_value (JS.Num (JS.parseInt (age (form s)))) = "null".
Proof.
  intros Ha Hn Hg Hw t. subst t.
  assert (H : required_filled (form s)) by (split; assumption).
  fold (snapshot (form s)) in Hw.
  split; [| split; [reflexivity | split]].
  - run_workflow v H; split_env; first [congruence | reflexivity].
  - unfold request_object. cbn. rewrite (is_NaN_eq _ Hn). reflexivity.
  - rewrite (is_NaN_eq _ Hn). reflexivity.
Qed.

Lemma C9_witness :
  let s := Sample.screen (Sample.with_age "abc" Sample.entry) in
  (age (form s) ≠ EmptyString
   ∧ JS.is_NaN (JS.parseInt (age (form s))) = true
   ∧ gender (form s) ≠ EmptyString
   ∧ setItem_result Sample.offline "manualEntry"
       (JS.JSON_stringify (form_object (form s))) = None)
  ∧ let t := trace_of (saveData baseline Sample.offline s) in
    requests t = [predict_request (form s)]
    ∧ body (predict_request (form s)) = JS.JSON_stringify (request_object (form s))
    ∧ JS.get (request_object (form s)) "age" = Some (JS.Num JS.NaN)
    ∧ JS.JSON_value (JS.Num (JS.parseInt (age (form s)))) = "null".
Proof.
  assert (Ha : age (form (Sample.screen (Sample.with_age "abc" Sample.entry)))
               ≠ EmptyString) by discriminate.
  assert (Hn : JS.is_NaN (JS.parseInt
                 (age (form (Sample.screen (Sample.with_age "abc" Sample.entry)))))
               = true) by reflexivity.
  assert (Hg : gender (form (Sample.screen (Sample.with_age "abc" Sample.entry)))
               ≠ EmptyString) by discriminate.
  split; [repeat split; assumption |].
  exact (C9_unparsable_age_is_sent baseline Sample.offline
           (Sample.screen (Sample.with_age "abc" Sample.entry)) Ha Hn Hg eq_refl).
Defined.

(** C9 as stated fails: an age that is not empty and does not parse does
    not by itself get a request sent.  With the gender left empty the
    guard stops the save, and with a store that rejects the write the save
    fails before the request. *)
Lemma C9_counterexample :
  let unparsable := Sample.with_age "abc" Sample.entry in
  let no_gender := Sample.with_gender EmptyString unparsable in
  age unparsable ≠ EmptyString
  ∧ JS.is_NaN (JS.parseInt (age unparsable)) = true
  ∧ requests (trace_of (saveData enhanced Sample.online (Sample.screen no_gender))) = []
  ∧ requests (trace_of (saveData enhanced Sample.storage_full
                          (Sample.screen unparsable))) = [].
Proof. vm_compute. repeat split. discriminate. Qed.

Lemma whitespace_only_nonempty a :
  JS.whitespace_only a = true -> a ≠ EmptyString.
Proof. intros H ->. discriminate H. Qed.

Lemma success_notice_not_validation v data notice :
  success_notice v data = Some notice -> notice ≠ validation_notice.
Proof.
  destruct v; cbn; unfold Baseline.success_notice, Enhanced.success_notice;
    destruct (prediction_label data); try discriminate;
    destruct (confidence_percent data); try discriminate;
    destruct (recommendation_lines data); try discriminate;
    cbn; intros [= <-]; discriminate.
Qed.

Lemma failure_notice_not_validation :
  Baseline.failure_notice ≠ validation_notice.
Proof. discriminate. Qed.

Lemma errorMessage_not_validation e :
  Enhanced.errorMessage e ≠ validation_notice.
Proof.
  unfold Enhanced.errorMessage.
  destruct (JS.includes (message e) Enhanced.network_marker); [discriminate |].
  destruct (JS.includes (message e) "Server error"); discriminate.
Qed.

(** C10, as the code has it.  When the age is one or more white-space
    characters and the gender is not empty, the guard lets the save
    through (in either variant): the validation notice is not shown and
    the persistence write is made; the request follows when the store
    accepts the write. *)
Theorem C10_blank_age_passes_guard (v : Variant) (env : Env) (s : State) :
  JS.whitespace_only (age (form s)) = true ->
  gender (form s) ≠ EmptyString ->
  let t := trace_of (saveData v env s) in
  let item := JS.JSON_stringify (form_object (form s)) in
  ¬ In "Please fill in at least Age and Gender" (alerts t)
  ∧ writes t = [("manualEntry", item)]
  ∧ (setItem_result env "manualEntry" item = None ->
       requests t = [predict_request (form s)]).
Proof.
  intros Hw Hg t item. subst t item. fold (snapshot (form s)).
  assert (H : required_filled (form s))
    by (split; [apply whitespace_only_nonempty |]; assumption).
  run_workflow v H; split_env; cbn;
    (split; [| split; [reflexivity | intros; first [congruence | reflexivity]]]);
    intros [E | []];
    first [ exact (failure_notice_not_validation E)
          | exact (errorMessage_not_validation _ E)
          | match goal with
            | G : Baseline.success_notice _ = Some _ |- _ =>
                exact (success_notice_not_validation baseline _ _ G E)
            | G : Enhanced.success_notice _ = Some _ |- _ =>
                exact (success_notice_not_validation enhanced _ _ G E)
            end ].
Qed.

Lemma C10_witness :
  let s := Sample.screen (Sample.with_age " " Sample.entry) in
  (JS.whitespace_only (age (form s)) = true ∧ gender (form s) ≠ EmptyString)
  ∧ let t := trace_of (saveData enhanced Sample.online s) in
    let item := JS.JSON_stringify (form_object (form s)) in
    ¬ In "Please fill in at least Age and Gender" (alerts t)
    ∧ writes t = [("manualEntry", item)]
    ∧ (setItem_result Sample.online "manualEntry" item = None ->
         requests t = [predict_request (form s)]).
Proof.
  assert (Hg : gender (form (Sample.screen (Sample.with_age " " Sample.entry)))
               ≠ EmptyString) by discriminate.
  split; [split; [reflexivity | exact Hg] |].
  exact (C10_blank_age_passes_guard enhanced Sample.online
           (Sample.screen (Sample.with_age " " Sample.entry)) eq_refl Hg).
Defined.

(** C10 as stated fails: with a blank age, a gender and a store that
    rejects the write, the guard is passed and the write attempted, but no
    request is made. *)
Lemma C10_counterexample :
  let s := Sample.screen (Sample.with_age " " Sample.entry) in
  let t := trace_of (saveData baseline Sample.storage_full s) in
  JS.whitespace_only (age (form s)) = true
  ∧ gender (form s) ≠ EmptyString
  ∧ length (writes t) = 1
  ∧ requests t = [].
Proof. vm_compute. repeat split. discriminate. Qed.

(** ** The failure notices *)

Lemma prefix_append n r : String.prefix n (n +:+ r) = true.
Proof.
  induction n as [| a n IH]; simpl.
  - destruct r; reflexivity.
  - destruct (ascii_dec a a); [exact IH | congruence].
Qed.

Lemma prefix_self n : String.prefix n n = true.
Proof.
  induction n as [| a n IH]; simpl; [reflexivity |].
  destruct (ascii_dec a a); [exact IH | congruence].
Qed.

Lemma includes_prefix hay n : String.prefix n hay = true -> JS.includes hay n = true.
Proof.
  intros H. destruct hay as [| c r].
  - destruct n; [reflexivity | discriminate H].
  - change (JS.includes (String c r) n)
      with (String.prefix n (String c r) || JS.includes r n).
    rewrite H. reflexivity.
Qed.

Lemma includes_append_r a hay n :
  JS.includes hay n = true -> JS.includes (a +:+ hay) n = true.
Proof.
  intros H. induction a as [| c a IH]; simpl; [exact H |].
  rewrite IH. apply orb_true_r.
Qed.

Lemma includes_middle a b c : JS.includes (a +:+ b +:+ c) b = true.
Proof. apply includes_append_r, includes_prefix, prefix_append. Qed.

(** The three branches of the enhanced [catch] block. *)
Lemma errorMessage_cases e :
  (JS.includes (message e) "Network request failed" = true ->
     Enhanced.errorMessage e = Enhanced.error_head +:+ Enhanced.network_help)
  ∧ (JS.includes (message e) "Network request failed" = false ->
     JS.includes (message e) "Server error" = true ->
     Enhanced.errorMessage e = Enhanced.error_head +:+ message e)
  ∧ (JS.includes (message e) "Network request failed" = false ->
     JS.includes (message e) "Server error" = false ->
     Enhanced.errorMessage e = Enhanced.error_head +:+ "Details: " +:+ message e).
Proof.
  unfold Enhanced.errorMessage, Enhanced.network_marker.
  destruct (JS.includes (message e) "Network request failed");
    destruct (JS.includes (message e) "Server error");
    repeat split; intros; first [discriminate | reflexivity].
Qed.

Lemma server_error_includes st t :
  JS.includes (Enhanced.server_error_message st t) "Server error" = true.
Proof. reflexivity. Qed.

(** C6, as the code has it.  When the age and the gender are filled in
    and the persistence or the prediction step fails, the baseline
    variant shows the fixed message whatever the cause.  The enhanced
    variant goes by the text of the failure description alone: the three
    numbered remediation steps when the description contains "Network
    request failed"; otherwise the description itself when it contains
    "Server error"; otherwise the description after "Details: ".  A
    response with a status outside 200 to 299 produces the description
    "Server error: <status> - <body text>", so its notice shows the status
    code and the body text unless that text brings in the network
    marker. *)
Theorem C6_failure_notices (env : Env) (s : State) :
  required_filled (form s) ->
  steps_fail env (form s) ->
  let head := "Error getting prediction." +:+ JS.LF +:+ JS.LF in
  let marked e := JS.includes (message e) "Network request failed" in
  alerts (trace_of (saveData baseline env s))
    = ["Error getting prediction. Please check your internet connection and try again."]
  ∧ ∃ e shown,
      enhanced_failure env (form s) e
      ∧ alerts (trace_of (saveData enhanced env s)) = [shown]
      ∧ (marked e = true ->
           shown = head +:+ "Network error: Cannot reach the server."
                   +:+ JS.LF +:+ JS.LF +:+ "Solutions:" +:+ JS.LF
                   +:+ "1. Check if the Replit server is running" +:+ JS.LF
                   +:+ "2. Make sure the API_URL is correct" +:+ JS.LF
                   +:+ "3. Try updating the URL in the code")
      ∧ (marked e = false -> JS.includes (message e) "Server error" = true ->
           shown = head +:+ message e)
      ∧ (marked e = false -> JS.includes (message e) "Server error" = false ->
           shown = head +:+ "Details: " +:+ message e)
      ∧ (∀ r, setItem_result env "manualEntry"
                (JS.JSON_stringify (form_object (form s))) = None ->
              fetch_result env (predict_request (form s)) = Resolved r ->
              ok r = false ->
              let code := JS.Number_toString (JS.Number_of_Z (Z.of_N (status r))) in
              message e = "Server error: " +:+ code +:+ " - " +:+ text r
              ∧ JS.includes (message e) "Server error" = true
              ∧ (marked e = false ->
                   shown = head +:+ "Server error: " +:+ code +:+ " - " +:+ text r
                   ∧ JS.includes shown code = true
                   ∧ JS.includes shown (text r) = true)).
Proof.
  intros H F head marked. subst head marked. fold (snapshot (form s)).
  unfold steps_fail in F. split.
  - unfold saveData. rewrite (Baseline_saveData_run _ _ H). cbv zeta.
    split_env; cbn; try reflexivity.
    exfalso. destruct F as [[? F] | [_ [[? F] | [? [F [F' | [? F']]]]]]]; congruence.
  - unfold saveData. rewrite (Enhanced_saveData_run _ _ H). cbv zeta.
    unfold enhanced_failure.
    split_env; cbn;
      try (exfalso;
           destruct F as [[? F] | [_ [[? F] | [? [F [F' | [? F']]]]]]];
           congruence);
      match goal with
      | |- context [Enhanced.errorMessage ?e] =>
          exists e, (Enhanced.errorMessage e);
          destruct (errorMessage_cases e) as (C1 & C2 & C3)
      end;
      (split; [ first [ left; reflexivity
                      | right; split; [reflexivity |]; left; reflexivity
                      | right; split; [reflexivity |]; right; eexists;
                        split; [reflexivity |];
                        first [ left; split; [assumption | reflexivity]
                              | right; split; assumption ] ] |]);
      (split; [reflexivity |]);
      (split; [exact C1 |]); (split; [exact C2 |]); (split; [exact C3 |]);
      intros r' Hw Hf Hok; try congruence.
    assert (r' = r) as -> by congruence.
    cbn. split; [reflexivity |]. split; [reflexivity |].
    intros Hm. rewrite (C2 Hm (server_error_includes _ _)).
    split; [reflexivity |]. cbn [message]. unfold Enhanced.server_error_message.
    split.
    + apply (includes_append_r Enhanced.error_head), (includes_middle "Server error: ").
    + apply (includes_append_r Enhanced.error_head),
        (includes_append_r "Server error: "),
        (includes_append_r (JS.Number_toString _)),
        (includes_append_r " - "), includes_prefix, prefix_self.
Qed.

Lemma C6_witness :
  let s := Sample.screen Sample.entry in
  let env := Sample.answering 500 "internal error" in
  required_filled (form s)
  ∧ steps_fail env (form s)
  ∧ alerts (trace_of (saveData baseline env s))
      = ["Error getting prediction. Please check your internet connection and try again."]
  ∧ alerts (trace_of (saveData enhanced env s))
      = [Enhanced.error_head +:+ "Server error: 500 - internal error"].
Proof.
  assert (H : required_filled (form (Sample.screen Sample.entry)))
    by (split; discriminate).
  assert (F : steps_fail (Sample.answering 500 "internal error")
                (form (Sample.screen Sample.entry))).
  { right. split; [reflexivity |]. right. eexists. split; [reflexivity |].
    left. reflexivity. }
  split; [exact H |]. split; [exact F |].
  destruct (C6_failure_notices (Sample.answering 500 "internal error")
              (Sample.screen Sample.entry) H F)
    as (B & _).
  split; [exact B | reflexivity].
Defined.

(** C6 as stated fails, in the enhanced variant.  A 500 response whose
    body text is "Network request failed" gets the remediation steps, and
    the notice shows neither the status code nor "Server error".  A write
    rejected with a description that contains "Server error" is neither a
    network failure nor a response, and its description is shown without
    the "Details:" prefix. *)
Lemma C6_counterexample :
  let s := Sample.screen Sample.entry in
  let relayed := Sample.answering 500 "Network request failed" in
  let rejected := Sample.storage_rejects "Server error while saving" in
  alerts (trace_of (saveData enhanced relayed s))
    = [Enhanced.error_head +:+ Enhanced.network_help]
  ∧ JS.includes (Enhanced.error_head +:+ Enhanced.network_help) "500" = false
  ∧ JS.includes (Enhanced.error_head +:+ Enhanced.network_help) "Server error" = false
  ∧ requests (trace_of (saveData enhanced rejected s)) = []
  ∧ alerts (trace_of (saveData enhanced rejected s))
    = [Enhanced.error_head +:+ "Server error while saving"]
  ∧ JS.includes (Enhanced.error_head +:+ "Server error while saving") "Details:" = false.
Proof. vm_compute. repeat split. Qed.

(** ** The confidence as a percentage *)

Section NumberFacts.

Local Open Scope Z_scope.

(** *** Right shifts in [SpecFloat] *)

Lemma digits2_pos_size p : digits2_pos p = Pos.size p.
Proof. induction p; simpl; congruence. Qed.

Lemma Zdigits2_log2 a : 0 < a -> Zdigits2 a = Z.log2 a + 1.
Proof.
  destruct a as [| p | p]; try lia. intros _.
  destruct p; simpl; rewrite ?digits2_pos_size; lia.
Qed.

Lemma shr_1_m mrs : 0 <= shr_m mrs -> shr_m (shr_1 mrs) = shr_m mrs / 2.
Proof.
  destruct mrs as [m r s]. cbv [shr_m shr_1]. intros H.
  destruct m as [| [p | p |] | p]; try lia; try reflexivity.
  - apply (Z.div_unique _ _ _ 1); lia.
  - apply (Z.div_unique _ _ _ 0); lia.
Qed.

Lemma iter_shr_1_m p : forall mrs, 0 <= shr_m mrs ->
  shr_m (SpecFloat.iter_pos shr_1 p mrs) = shr_m mrs / 2 ^ Zpos p.
Proof.
  induction p as [p IH | p IH |]; intros mrs H; simpl SpecFloat.iter_pos.
  - assert (H1 : 0 <= shr_m (shr_1 mrs)) by (rewrite shr_1_m by lia; apply Z.div_pos; lia).
    assert (H2 : 0 <= shr_m (SpecFloat.iter_pos shr_1 p (shr_1 mrs))).
    { rewrite IH by lia. apply Z.div_pos; [lia | apply Z.pow_pos_nonneg; lia]. }
    rewrite IH, IH, shr_1_m by lia.
    rewrite !Z.div_div by (try apply Z.pow_pos_nonneg; lia).
    f_equal. rewrite Pos2Z.inj_xI, <- Z.pow_add_r, <- Z.pow_succ_r by lia. f_equal. lia.
  - assert (H2 : 0 <= shr_m (SpecFloat.iter_pos shr_1 p mrs)).
    { rewrite IH by lia. apply Z.div_pos; [lia | apply Z.pow_pos_nonneg; lia]. }
    rewrite IH, IH by lia.
    rewrite !Z.div_div by (try apply Z.pow_pos_nonneg; lia).
    f_equal. rewrite Pos2Z.inj_xO, <- Z.pow_add_r by lia. f_equal. lia.
  - rewrite shr_1_m by lia. reflexivity.
Qed.

Lemma shr_spec mrs e n : 0 <= shr_m mrs ->
  shr_m (fst (shr mrs e n)) = Z.shiftr (shr_m mrs) (Z.max n 0)
  ∧ snd (shr mrs e n) = e + Z.max n 0.
Proof.
  intros H. destruct n as [| p | p]; simpl fst; simpl snd.
  - split; [reflexivity | lia].
  - rewrite iter_shr_1_m by lia. rewrite Z.shiftr_div_pow2 by lia.
    rewrite Z.max_l by lia. split; [reflexivity | lia].
  - split; [reflexivity | lia].
Qed.

Lemma shr_record_of_loc_m m l : shr_m (shr_record_of_loc m l) = m.
Proof. destruct l as [| []]; reflexivity. Qed.

Lemma round_nearest_even_bounds m l :
  m <= round_nearest_even m l <= m + 1.
Proof.
  unfold round_nearest_even. destruct l as [| []]; try destruct (Z.even m); lia.
Qed.







(** *** Rounding to one decimal *)



End NumberFacts.

(** *** One decimal digit *)









(** *** The numeral of the tenths *)













(** ** The success notice *)





(* ------------------------------------------------------------------ *)
(** * Part V.  The rest of the screen: properties                       *)
(* ------------------------------------------------------------------ *)

(** ** Editing the form *)

(** X1. [handleChange(key, value)] returns normally with no observable
    effect; afterwards the field [key] holds [value], every other field
    holds what it holds in the [form] the handler closes over (for a
    handler of the screen as rendered from the current state: what it
    held), and the loading flag and the store are as they were. *)
Theorem X1_handleChange_sets_one_field
    (captured : FormEntry) (key : Screen.Field) (value : string)
    (env : Env) (s : State) :
  let r := Screen.handleChange captured key value env s in
  outcome_of r = Returned tt
  ∧ trace_of r = []
  ∧ Screen.get_field (form (state_of r)) key = value
  ∧ (∀ k, k ≠ key ->
          Screen.get_field (form (state_of r)) k = Screen.get_field captured k)
  ∧ loading (state_of r) = loading s
  ∧ storage (state_of r) = storage s.
Proof.
  cbn. repeat split.
  - destruct key; reflexivity.
  - intros k H. destruct key, k; first [reflexivity | congruence].
Qed.

(** X2. On the object that [JSON.stringify] sees, the edit is the spread
    with a computed key: the twelve keys stay in creation order and only
    the value under [key] changes. *)
Theorem X2_set_field_is_object_spread
    (f : FormEntry) (key : Screen.Field) (value : string) :
  form_object (Screen.set_field f key value)
    = Screen.spread_with (form_object f) (Screen.field_name key) (JS.Str value)
  ∧ map fst (form_object (Screen.set_field f key value)) = map fst (form_object f).
Proof. destruct key; split; reflexivity. Qed.

(** X3. How edits compose.  The handlers of one render close over the
    same [form], so of two calls with no render between them only the
    later one stands: the edit of the earlier call is lost, its field is
    back to what the render read.  With a render between them edits
    compose as assignments do: of two edits of one field the later one
    stands, edits of different fields commute and both stand, and writing
    back what a field holds changes nothing. *)
Theorem X3_edits_compose
    (k k' : Screen.Field) (v w : string) (captured : FormEntry)
    (env : Env) (s : State) :
  let stale :=
    (Screen.handleChange captured k v;; Screen.handleChange captured k' w) env s in
  let fresh := (Screen.edit k v;; Screen.edit k' w) env s in
  stale = Screen.handleChange captured k' w env s
  ∧ (k ≠ k' ->
       Screen.get_field (form (state_of stale)) k = Screen.get_field captured k)
  ∧ (Screen.edit k v;; Screen.edit k w) env s = Screen.edit k w env s
  ∧ (k ≠ k' ->
       fresh = (Screen.edit k' w;; Screen.edit k v) env s
       ∧ Screen.get_field (form (state_of fresh)) k = v
       ∧ Screen.get_field (form (state_of fresh)) k' = w)
  ∧ state_of (Screen.edit k (Screen.get_field (form s) k) env s) = s.
Proof.
  destruct s as [f l st]. destruct f. cbv zeta.
  split; [reflexivity |]. split; [| split; [| split]].
  - intros H. destruct k, k'; first [reflexivity | congruence].
  - destruct k; reflexivity.
  - intros H. destruct k, k'; first [congruence | repeat split].
  - destruct k; reflexivity.
Qed.

Lemma X3_witness :
  let s := Sample.screen Sample.entry in
  let stale :=
    (Screen.handleChange Sample.entry Screen.Age "29";;
     Screen.handleChange Sample.entry Screen.Gender "Female") Sample.online s in
  let fresh :=
    (Screen.edit Screen.Age "29";; Screen.edit Screen.Gender "Female")
      Sample.online s in
  Screen.Age ≠ Screen.Gender
  ∧ age (form (state_of stale)) = "28"
  ∧ gender (form (state_of stale)) = "Female"
  ∧ age (form (state_of fresh)) = "29"
  ∧ gender (form (state_of fresh)) = "Female".
Proof.
  assert (H : Screen.Age ≠ Screen.Gender) by discriminate.
  pose proof (X3_edits_compose Screen.Age Screen.Gender "29" "Female"
                Sample.entry Sample.online (Sample.screen Sample.entry))
    as (_ & S & _ & F & _).
  split; [exact H |]. split; [exact (S H) |]. split; [reflexivity |].
  exact (proj2 (F H)).
Defined.

(** ** Every run of the save workflow *)

Lemma guard_cases f :
  required_filled f ∨ (age f = EmptyString ∨ gender f = EmptyString).
Proof.
  unfold required_filled.
  destruct (age f); [right; left; reflexivity |].
  destruct (gender f); [right; right; reflexivity |].
  left. split; discriminate.
Qed.

Ltac every_run v env s :=
  destruct (guard_cases (form s)) as [H | H];
  [ run_workflow v H; split_env; cbn
  | rewrite (saveData_guarded v env s H); cbn ].

(** ** When the notice can be composed *)

(** Induction on a value and on the elements of its arrays. *)
Lemma Value_array_ind (P : JS.Value -> Prop) :
  (∀ v, (∀ items, v ≠ JS.VArr items) -> P v) ->
  (∀ items, Forall P items -> P (JS.VArr items)) ->
  ∀ v, P v.
Proof.
  intros Hleaf Harr. fix IH 1. intros v.
  destruct v as [| | b | x | t | items | members];
    try (apply Hleaf; intros; discriminate).
  apply Harr. induction items as [| x r IHr]; constructor; [apply IH | exact IHr].
Qed.

Lemma own_existsb members name :
  JS.own members name = None
  ↔ existsb (fun kv => String.eqb (fst kv) name) members = false.
Proof.
  induction members as [| [k v] r IH]; [split; reflexivity |].
  cbn [JS.own existsb fst]. destruct (JS.own r name) as [w |].
  - split; [discriminate |]. intros E. apply orb_false_elim in E as [_ E].
    apply IH in E. discriminate E.
  - destruct (String.eqb k name); cbn; [split; discriminate |].
    split; intros _; [apply IH |]; reflexivity.
Qed.

Lemma elements_with_Some text items :
  (∃ ts, JS.elements_with text items = Some ts)
  ↔ Forall (fun x => match x with
                     | JS.VUndefined | JS.VNull => True
                     | _ => ∃ t, text x = Some t
                     end) items.
Proof.
  induction items as [| x r IH].
  - split; [constructor | eexists; reflexivity].
  - cbn [JS.elements_with]. fold (JS.elements_with text).
    split.
    + intros [ts E]. constructor.
      * destruct x; try exact I;
          (destruct (text _) as [t |]; [eexists; reflexivity | discriminate E]).
      * apply IH.
        destruct (JS.elements_with text r) as [b |]; [eexists; reflexivity |].
        destruct x; try discriminate E; destruct (text _); discriminate E.
    + intros F. inversion F as [| ? ? Hx Hr]; subst.
      apply IH in Hr as [b ->].
      destruct x; try (eexists; reflexivity); destruct Hx as [t ->];
        eexists; reflexivity.
Qed.

(** [ToString] throws exactly on the values that are not convertible. *)
Lemma ToString_convertible v :
  (∃ t, JS.ToString v = Some t) ↔ convertible v = true.
Proof.
  induction v as [v Hv | items IH] using Value_array_ind.
  - destruct v as [| | b | x | t | items | members];
      try (split; [reflexivity | eexists; reflexivity]).
    + exfalso. exact (Hv items eq_refl).
    + cbn [JS.ToString convertible].
      pose proof (own_existsb members "toString") as O.
      destruct (JS.own members "toString") as [w |].
      * destruct (existsb _ members); [| destruct O as [_ O]; discriminate O; reflexivity].
        split; [intros [t E]; discriminate E | discriminate].
      * rewrite (proj1 O eq_refl). split; [reflexivity | eexists; reflexivity].
  - cbn [JS.ToString convertible]. rewrite forallb_forall.
    split.
    + intros [t E].
      assert (S : ∃ ts, JS.elements_with JS.ToString items = Some ts).
      { destruct (JS.elements_with JS.ToString items); [eexists; reflexivity | discriminate E]. }
      apply elements_with_Some in S.
      rewrite List.Forall_forall in S, IH.
      intros x Hx. specialize (S x Hx). specialize (IH x Hx).
      destruct x; try reflexivity; apply IH; exact S.
    + intros C.
      assert (S : ∃ ts, JS.elements_with JS.ToString items = Some ts).
      { apply elements_with_Some. rewrite List.Forall_forall in IH |- *.
        intros x Hx. specialize (C x Hx). specialize (IH x Hx).
        destruct x; try exact I; apply IH; exact C. }
      destruct S as [ts ->]. eexists. reflexivity.
Qed.

Lemma ToNumber_convertible v :
  (∃ x, JS.ToNumber v = Some x) ↔ convertible v = true.
Proof.
  rewrite <- ToString_convertible.
  destruct v as [| | b | x | t | items | members];
    try (split; intros _; eexists; reflexivity);
    unfold JS.ToNumber;
    (split; intros [y E];
     [ destruct (JS.ToString _) as [t |]; [eexists; reflexivity | discriminate E]
     | rewrite E; eexists; reflexivity ]).
Qed.

Lemma call_join_convertible list sep :
  (∃ t, JS.call_join list sep = Some t)
  ↔ ∃ items, list = JS.VArr items ∧ forallb convertible items = true.
Proof.
  split.
  - intros [t E]. destruct list as [| | b | x | u | items | members];
      try discriminate E.
    exists items. split; [reflexivity |].
    apply (proj1 (ToString_convertible (JS.VArr items))).
    cbn [JS.call_join] in E. cbn [JS.ToString].
    destruct (JS.elements_with JS.ToString items); [eexists; reflexivity | discriminate E].
  - intros (items & -> & C).
    apply (proj2 (ToString_convertible (JS.VArr items))) in C as [t E].
    cbn [JS.ToString] in E. cbn [JS.call_join].
    destruct (JS.elements_with JS.ToString items); [eexists; reflexivity | discriminate E].
Qed.

(** The notice is composed exactly from the presentable bodies. *)
Lemma notice_iff_presentable v data :
  (∃ notice, success_notice v data = Some notice) ↔ presentable data = true.
Proof.
  assert (L : (∃ t, prediction_label data = Some t)
              ↔ ∃ label, JS.Get data "prediction" = Some label
                         ∧ convertible label = true).
  { unfold prediction_label. destruct (JS.Get data "prediction") as [label |]; cbn.
    - split.
      + intros E. exists label. split; [reflexivity |].
        apply ToString_convertible. exact E.
      + intros (? & [= <-] & C). apply ToString_convertible. exact C.
    - split; [intros [? E]; discriminate E | intros (? & E & _); discriminate E]. }
  assert (C : (∃ t, confidence_percent data = Some t)
              ↔ ∃ c, JS.Get data "confidence" = Some c ∧ convertible c = true).
  { unfold confidence_percent. destruct (JS.Get data "confidence") as [c |]; cbn.
    - split.
      + intros [t E]. exists c. split; [reflexivity |].
        apply ToNumber_convertible.
        destruct (JS.ToNumber c); [eexists; reflexivity | discriminate E].
      + intros (? & [= <-] & Cc). apply ToNumber_convertible in Cc as [x ->].
        eexists. reflexivity.
    - split; [intros [? E]; discriminate E | intros (? & E & _); discriminate E]. }
  assert (R : (∃ t, recommendation_lines data = Some t)
              ↔ ∃ items, JS.Get data "recommendations" = Some (JS.VArr items)
                         ∧ forallb convertible items = true).
  { unfold recommendation_lines.
    destruct (JS.Get data "recommendations") as [list |]; cbn.
    - split.
      + intros E. apply call_join_convertible in E as (items & -> & F). eauto.
      + intros (items & [= ->] & F). apply call_join_convertible. eauto.
    - split; [intros [? E]; discriminate E | intros (? & E & _); discriminate E]. }
  assert (N : (∃ notice, success_notice v data = Some notice)
              ↔ (∃ t, prediction_label data = Some t)
                ∧ (∃ t, confidence_percent data = Some t)
                ∧ (∃ t, recommendation_lines data = Some t)).
  { destruct v; cbn; unfold Baseline.success_notice, Enhanced.success_notice;
      destruct (prediction_label data), (confidence_percent data),
        (recommendation_lines data); cbn;
      (split; [ intros [? E]; first [discriminate E | repeat split; eexists; reflexivity]
              | intros ([? E1] & [? E2] & [? E3]);
                first [discriminate | eexists; reflexivity] ]). }
  rewrite N, L, C, R. unfold presentable. split.
  - intros ((label & -> & Cl) & (c & -> & Cc) & (items & -> & Ci)).
    rewrite Cl, Cc, Ci. reflexivity.
  - destruct (JS.Get data "prediction") as [label |]; [| discriminate].
    destruct (JS.Get data "confidence") as [c |]; [| discriminate].
    destruct (JS.Get data "recommendations") as [[| | | | | items |] |]; try discriminate.
    intros E. apply andb_prop in E as [E Ci]. apply andb_prop in E as [Cl Cc].
    repeat split; eauto.
Qed.

Lemma notice_None_iff v data :
  success_notice v data = None ↔ presentable data = false.
Proof.
  pose proof (notice_iff_presentable v data) as [A B].
  destruct (success_notice v data) as [n |], (presentable data);
    split; intros E; try reflexivity; try discriminate E.
  - specialize (A (ex_intro _ n eq_refl)). discriminate A.
  - destruct (B eq_refl) as [n E']. discriminate E'.
Qed.

(** How a run ends, by whether the notice is composed. *)
Lemma save_run_by_notice (v : Variant) (env : Env) (s : State) :
  let r := saveData v env s in
  let thrown :=
    ∃ data, Screen.prediction_obtained env (form s) data
            ∧ success_notice v data = None in
  outcome_of r = Returned tt
  ∧ form (state_of r) = form s
  ∧ length (alerts (trace_of r)) = 1
  ∧ (required_filled (form s) ->
       loading (state_of r) = false
       ∧ (¬ thrown -> loading_updates (trace_of r) = [true; false])
       ∧ (thrown -> loading_updates (trace_of r) = [true; false; false]))
  ∧ (¬ required_filled (form s) ->
       state_of r = s ∧ loading_updates (trace_of r) = []).
Proof.
  intros r thrown. subst r thrown.
  unfold Screen.prediction_obtained.
  destruct (guard_cases (form s)) as [H | H].
  - run_workflow v H; split_env; cbn;
      (split; [reflexivity |]); (split; [reflexivity |]); (split; [reflexivity |]);
      (split; [intros _; split; [reflexivity |]; split | intros N; contradiction]);
      first
        [ intros _; reflexivity
        | intros U; exfalso;
          first
            [ destruct U as (d & (_ & W & r' & F & O & J) & C);
              try discriminate; injection F as <-; congruence
            | apply U; eexists; split;
              [ split; [assumption |]; split; [reflexivity |];
                eexists; split; [reflexivity |]; split; eassumption
              | eassumption ] ] ].
  - rewrite (saveData_guarded v env s H). cbn.
    split; [reflexivity |]. split; [reflexivity |]. split; [reflexivity |].
    split; [| intros _; split; reflexivity].
    intros R. exfalso. unfold required_filled in R. destruct H; tauto.
Qed.

(** X4. A save never throws, whatever the store, the network and the
    decoded body do: every failure, the TypeError of a notice that cannot
    be composed included, ends in the [catch] block.  The form is left as
    it was and exactly one notice is shown.  Past the guard the loading
    flag is set once, then cleared, and is clear at the end.  It is
    cleared once, except when a prediction is obtained and its body is not
    presentable: then it is cleared before the notice is composed and
    again in the [catch] block.  At the guard nothing of the state
    changes. *)
Theorem X4_save_always_returns (v : Variant) (env : Env) (s : State) :
  let r := saveData v env s in
  let unpresentable :=
    ∃ data, Screen.prediction_obtained env (form s) data
            ∧ presentable data = false in
  outcome_of r = Returned tt
  ∧ form (state_of r) = form s
  ∧ length (alerts (trace_of r)) = 1
  ∧ (required_filled (form s) ->
       loading (state_of r) = false
       ∧ (¬ unpresentable -> loading_updates (trace_of r) = [true; false])
       ∧ (unpresentable -> loading_updates (trace_of r) = [true; false; false]))
  ∧ (¬ required_filled (form s) ->
       state_of r = s ∧ loading_updates (trace_of r) = []).
Proof.
  cbv zeta.
  destruct (save_run_by_notice v env s) as (R & F & A & P & G).
  split; [exact R |]. split; [exact F |]. split; [exact A |].
  split; [| exact G].
  intros H. destruct (P H) as (L & U1 & U2).
  split; [exact L |]. split.
  - intros N. apply U1. intros (d & Hp & Hn). apply N.
    exists d. split; [exact Hp |]. apply (notice_None_iff v). exact Hn.
  - intros (d & Hp & Hn). apply U2.
    exists d. split; [exact Hp |]. apply (notice_None_iff v). exact Hn.
Qed.

Lemma X4_witness :
  let s := Sample.screen Sample.entry in
  let stored := saveData enhanced Sample.storage_full s in
  let bare := saveData enhanced (Sample.decoding "{}" (JS.VObj [])) s in
  required_filled (form s)
  ∧ (outcome_of stored = Returned tt
     ∧ loading (state_of stored) = false
     ∧ loading_updates (trace_of stored) = [true; false])
  ∧ (outcome_of bare = Returned tt
     ∧ loading (state_of bare) = false
     ∧ loading_updates (trace_of bare) = [true; false; false]).
Proof.
  assert (H : required_filled (form (Sample.screen Sample.entry)))
    by (split; discriminate).
  pose proof (X4_save_always_returns enhanced Sample.storage_full
                (Sample.screen Sample.entry)) as (R & _ & _ & P & _).
  pose proof (X4_save_always_returns enhanced (Sample.decoding "{}" (JS.VObj []))
                (Sample.screen Sample.entry)) as (R' & _ & _ & P' & _).
  destruct (P H) as (L & U & _). destruct (P' H) as (L' & _ & U').
  split; [exact H |]. split; (split; [assumption |]); (split; [assumption |]).
  - apply U. intros (d & (_ & W & _) & _). discriminate W.
  - apply U'. exists (JS.VObj []). split; [| reflexivity].
    split; [exact H |]. split; [reflexivity |].
    eexists. repeat split.
Defined.

(** ** The save button *)

(** X5. A press on the save button keeps the discipline of the loading
    flag: whatever the store and the network do, writes and requests are
    made only while the flag is set, and notices and the navigation back
    come only while it is clear.  While the flag is set the button is
    disabled and a press does nothing at all. *)
Theorem X5_press_keeps_loading_discipline (v : Variant) (env : Env) (s : State) :
  Screen.disciplined (loading s) (trace_of (Screen.press_save v env s)) = true
  ∧ (loading s = true -> Screen.press_save v env s = (Returned tt, s, [])).
Proof.
  unfold Screen.press_save, Screen.save_button. cbn.
  destruct (loading s) eqn:L; [split; reflexivity |].
  split; [| discriminate].
  every_run v env s; reflexivity.
Qed.

Lemma X5_witness :
  let s := {| form := Sample.entry; loading := true; storage := ∅ |} in
  loading s = true
  ∧ Screen.press_save baseline Sample.online s = (Returned tt, s, []).
Proof.
  split; [reflexivity |].
  exact (proj2 (X5_press_keeps_loading_discipline baseline Sample.online
                  {| form := Sample.entry; loading := true; storage := ∅ |})
           eq_refl).
Defined.

(** X6. A press on the save button leaves the loading flag as it found
    it, so the button is enabled after a press exactly when it was before,
    and it shows "Save Entry" exactly when it is enabled. *)
Theorem X6_press_restores_button (v : Variant) (env : Env) (s : State) :
  let s' := state_of (Screen.press_save v env s) in
  loading s' = loading s
  ∧ Screen.save_button s' = Screen.save_button s
  ∧ (Screen.button_disabled (Screen.save_button s') = false
     ↔ Screen.button_text (Screen.save_button s') = "Save Entry").
Proof.
  cbv zeta.
  assert (L : loading (state_of (Screen.press_save v env s)) = loading s).
  { unfold Screen.press_save, Screen.save_button. cbn.
    destruct (loading s) eqn:L; [exact L |].
    every_run v env s; first [reflexivity | exact L]. }
  split; [exact L |].
  unfold Screen.save_button. rewrite L. split; [reflexivity |].
  cbn. destruct (loading s); split; intros; first [reflexivity | discriminate].
Qed.

(** ** The two variants *)

(** The two notices are composed from the same three readings. *)
Lemma success_notice_alike data :
  match Baseline.success_notice data, Enhanced.success_notice data with
  | Some _, Some _ | None, None => True
  | _, _ => False
  end.
Proof.
  unfold Baseline.success_notice, Enhanced.success_notice.
  destruct (prediction_label data); [| exact I].
  destruct (confidence_percent data); [| exact I].
  destruct (recommendation_lines data); exact I.
Qed.

Ltac notices_alike :=
  try match goal with
      | G1 : Baseline.success_notice ?d = _,
        G2 : Enhanced.success_notice ?d = _ |- _ =>
          let A := fresh "A" in
          pose proof (success_notice_alike d) as A;
          rewrite G1, G2 in A; try contradiction
      end.

(** X7. The two variants differ only in what they print and in the text
    of their notices: in every environment and from every state they end
    in the same state, make the same writes and requests in the same
    order, update the loading flag alike and navigate alike; at the guard
    they show the same notice. *)
Theorem X7_variants_agree (env : Env) (s : State) :
  let b := saveData baseline env s in
  let e := saveData enhanced env s in
  state_of b = state_of e
  ∧ io_events (trace_of b) = io_events (trace_of e)
  ∧ loading_updates (trace_of b) = loading_updates (trace_of e)
  ∧ navigations (trace_of b) = navigations (trace_of e)
  ∧ length (alerts (trace_of b)) = length (alerts (trace_of e))
  ∧ (¬ required_filled (form s) -> alerts (trace_of b) = alerts (trace_of e)).
Proof.
  cbv zeta. destruct (guard_cases (form s)) as [H | H].
  - unfold saveData.
    rewrite (Baseline_saveData_run _ _ H), (Enhanced_saveData_run _ _ H).
    cbv zeta. split_env; notices_alike; cbn; repeat split; intros; contradiction.
  - rewrite !(saveData_guarded _ env s H). repeat split.
Qed.

Lemma navigations_cases v env s :
  let t := trace_of (saveData v env s) in
  let shown := ∃ data notice, Screen.prediction_obtained env (form s) data
                              ∧ success_notice v data = Some notice in
  navigations t = 1 ∧ shown ∨ navigations t = 0 ∧ ¬ shown.
Proof.
  cbv zeta. unfold Screen.prediction_obtained.
  every_run v env s;
    first
      [ left; split; [reflexivity |];
        eexists _, _; split;
        [ split; [assumption |]; split; [reflexivity |];
          eexists; repeat split; first [reflexivity | eassumption]
        | cbn; eassumption ]
      | right; split; [reflexivity |];
        intros (d & n & (Hf & Hw & r' & Hr & Ho & Hj) & Hn); cbn in Hn;
        first [ congruence
              | unfold required_filled in Hf; destruct H; tauto ] ].
Qed.

(** X8. The save navigates back exactly when a prediction is obtained and
    its body is presentable, and never more than once.  A body that
    carries a prediction is presentable; a body whose [recommendations]
    is not an array (a missing one, or a body that is [null], included)
    is not, so a success status with such a body ends without the
    navigation. *)
Theorem X8_back_iff_prediction (v : Variant) (env : Env) (s : State) :
  let t := trace_of (saveData v env s) in
  let shown := ∃ data, Screen.prediction_obtained env (form s) data
                       ∧ presentable data = true in
  (navigations t = 1 ↔ shown)
  ∧ (navigations t = 0 ↔ ¬ shown)
  ∧ (∀ data p, carries data p -> presentable data = true)
  ∧ (∀ data, (∀ items, JS.Get data "recommendations" ≠ Some (JS.VArr items)) ->
             presentable data = false).
Proof.
  cbv zeta.
  assert (E : (∃ data notice, Screen.prediction_obtained env (form s) data
                              ∧ success_notice v data = Some notice)
              ↔ ∃ data, Screen.prediction_obtained env (form s) data
                        ∧ presentable data = true).
  { split.
    - intros (d & n & P & S). exists d. split; [exact P |].
      apply (notice_iff_presentable v). eauto.
    - intros (d & P & S). apply (notice_iff_presentable v) in S as [n S]. eauto. }
  split; [| split; [| split]].
  - rewrite <- E. destruct (navigations_cases v env s) as [[N P] | [N P]];
      rewrite N; split; intros;
      first [assumption | reflexivity | discriminate | contradiction].
  - rewrite <- E. destruct (navigations_cases v env s) as [[N P] | [N P]];
      rewrite N; split; intros;
      first [assumption | reflexivity | discriminate | contradiction].
  - intros data p (L & C & R). unfold presentable. rewrite L, C, R.
    cbn [convertible andb]. clear R.
    induction (recommendations p) as [| x xs IH]; [reflexivity | exact IH].
  - intros data H. unfold presentable.
    destruct (JS.Get data "prediction"); [| reflexivity].
    destruct (JS.Get data "confidence"); [| reflexivity].
    destruct (JS.Get data "recommendations") as [[] |] eqn:G; try reflexivity.
    exfalso. exact (H _ eq_refl).
Qed.

Lemma X8_witness :
  let s := Sample.screen Sample.entry in
  let bare := Sample.decoding "{}" (JS.VObj []) in
  (carries (Sample.body_of Sample.good) Sample.good
   ∧ ∀ items, JS.Get (JS.VObj []) "recommendations" ≠ Some (JS.VArr items))
  ∧ presentable (Sample.body_of Sample.good) = true
  ∧ presentable (JS.VObj []) = false
  ∧ navigations (trace_of (saveData baseline Sample.online s)) = 1
  ∧ navigations (trace_of (saveData baseline bare s)) = 0.
Proof.
  assert (C : carries (Sample.body_of Sample.good) Sample.good) by (repeat split).
  assert (R : ∀ items, JS.Get (JS.VObj []) "recommendations" ≠ Some (JS.VArr items))
    by (intros items; discriminate).
  pose proof (X8_back_iff_prediction baseline Sample.online
                (Sample.screen Sample.entry)) as (_ & _ & P & Q).
  split; [split; [exact C | exact R] |].
  split; [exact (P _ _ C) |]. split; [exact (Q _ R) |].
  split; reflexivity.
Defined.

(** ** The store *)

(** X9. A save touches the store at the key "manualEntry" and nowhere
    else.  The store is left as it was when the guard stops the save or
    the write is rejected; otherwise it holds the snapshot of the form
    under "manualEntry", whether or not the prediction then succeeds. *)
Theorem X9_store_effect (v : Variant) (env : Env) (s : State) :
  let s' := state_of (saveData v env s) in
  let item := JS.JSON_stringify (form_object (form s)) in
  (∀ k, k ≠ "manualEntry" -> storage s' !! k = storage s !! k)
  ∧ (required_filled (form s) ->
       setItem_result env "manualEntry" item = None ->
       storage s' = <["manualEntry" := item]> (storage s))
  ∧ (¬ required_filled (form s)
       ∨ (∃ e, setItem_result env "manualEntry" item = Some e) ->
       storage s' = storage s).
Proof.
  cbv zeta. fold (snapshot (form s)).
  every_run v env s; repeat split; intros;
    try reflexivity; try congruence;
    try (rewrite lookup_insert_ne by congruence; reflexivity).
  all: try match goal with
           | G : _ ∨ _ |- _ => destruct G as [G | [? G]];
                                first [contradiction | congruence]
           end.
  all: exfalso; unfold required_filled in *; destruct H; tauto.
Qed.

Lemma X9_witness :
  let s := Sample.screen Sample.entry in
  let item := JS.JSON_stringify (form_object (form s)) in
  (required_filled (form s)
   ∧ setItem_result Sample.offline "manualEntry" item = None)
  ∧ storage (state_of (saveData enhanced Sample.offline s))
    = <["manualEntry" := item]> (storage s).
Proof.
  assert (H : required_filled (form (Sample.screen Sample.entry)))
    by (split; discriminate).
  split; [split; [exact H | reflexivity] |].
  exact (proj1 (proj2 (X9_store_effect enhanced Sample.offline
                         (Sample.screen Sample.entry))) H eq_refl).
Defined.

(** The environment answers the second run as it answered the first. *)
Ltac same_answers :=
  repeat match goal with
         | G : ?x = _ |- context [?x] => rewrite G; cbn
         end.

(** X10. Saving twice in a row, with the same form in the same
    environment, ends in the state the first save ended in and repeats
    the effects of the first save exactly: the second write replaces the
    snapshot by an equal one and the second request is the same
    request. *)
Theorem X10_saving_twice (v : Variant) (env : Env) (s : State) :
  let first := saveData v env s in
  let second := saveData v env (state_of first) in
  state_of second = state_of first
  ∧ trace_of second = trace_of first.
Proof.
  cbv zeta.
  destruct (guard_cases (form s)) as [H | H].
  - destruct v; unfold saveData.
    + rewrite (Baseline_saveData_run env s H). cbv zeta.
      split_env; cbn [state_of trace_of fst snd];
        rewrite Baseline_saveData_run by exact H;
        cbn [form storage]; same_answers;
        rewrite ?insert_insert_eq; split; reflexivity.
    + rewrite (Enhanced_saveData_run env s H). cbv zeta.
      split_env; cbn [state_of trace_of fst snd];
        rewrite Enhanced_saveData_run by exact H;
        cbn [form storage]; same_answers;
        rewrite ?insert_insert_eq; split; reflexivity.
  - rewrite (saveData_guarded v env s H). cbn.
    rewrite (saveData_guarded v env s H). split; reflexivity.
Qed.

(** ** The prediction client *)

(** X11. A call of [getPrediction] makes exactly one request (the POST of
    the derived body to the predict address), shows nothing, writes
    nothing and leaves the state alone.  It returns the decoded body when
    the service answers with a success status and a body that decodes.
    Otherwise it throws: the very error [fetch] or [json()] rejected
    with, or, for a status outside 200 to 299, "Failed to get prediction"
    in the baseline variant and the "Server error" description in the
    enhanced one. *)
Theorem X11_getPrediction_outcome (env : Env) (s : State) (f : FormEntry) :
  let b := Baseline.getPrediction f env s in
  let e := Enhanced.getPrediction f env s in
  (state_of b = s ∧ state_of e = s)
  ∧ (requests (trace_of b) = [predict_request f]
     ∧ requests (trace_of e) = [predict_request f])
  ∧ (url (predict_request f) = API_URL +:+ "/predict"
     ∧ method (predict_request f) = "POST"
     ∧ headers (predict_request f) = [("Content-Type", "application/json")])
  ∧ (alerts (trace_of b) = [] ∧ alerts (trace_of e) = []
     ∧ writes (trace_of b) = [] ∧ writes (trace_of e) = [])
  ∧ match fetch_result env (predict_request f) with
    | Rejected err => outcome_of b = Thrown err ∧ outcome_of e = Thrown err
    | Resolved r =>
        if ok r then
          match json r with
          | inl err => outcome_of b = Thrown err ∧ outcome_of e = Thrown err
          | inr p => outcome_of b = Returned p ∧ outcome_of e = Returned p
          end
        else
          outcome_of b = Thrown {| message := "Failed to get prediction" |}
          ∧ outcome_of e
            = Thrown {| message :=
                          "Server error: "
                          +:+ JS.Number_toString (JS.Number_of_Z (Z.of_N (status r)))
                          +:+ " - " +:+ text r |}
    end.
Proof.
  cbv zeta. unfold_async.
  destruct (fetch_result env (predict_request f)) as [err | r]; cbn;
    [repeat split |].
  destruct (ok r); cbn; [| repeat split].
  destruct (json r); cbn; repeat split.
Qed.

(** X12. The six fields that are only kept on the device never reach the
    request: an edit of the occupation, the sleep duration, the sleep
    quality, the blood pressure, the heart rate or the sleep disorder
    leaves the request as it was. *)
Theorem X12_local_fields_stay_local (f : FormEntry) (k : Screen.Field) (v : string) :
  In k [Screen.Occupation; Screen.SleepDuration; Screen.SleepQuality;
        Screen.BloodPressure; Screen.HeartRate; Screen.SleepDisorder] ->
  predict_request (Screen.set_field f k v) = predict_request f.
Proof.
  intros H. repeat (destruct H as [<- | H]; [reflexivity |]). destruct H.
Qed.

Lemma X12_witness :
  In Screen.BloodPressure
     [Screen.Occupation; Screen.SleepDuration; Screen.SleepQuality;
      Screen.BloodPressure; Screen.HeartRate; Screen.SleepDisorder]
  ∧ predict_request (Screen.set_field Sample.entry Screen.BloodPressure "135/85")
    = predict_request Sample.entry.
Proof.
  assert (H : In Screen.BloodPressure
                [Screen.Occupation; Screen.SleepDuration; Screen.SleepQuality;
                 Screen.BloodPressure; Screen.HeartRate; Screen.SleepDisorder])
    by (simpl; tauto).
  split; [exact H |].
  exact (X12_local_fields_stay_local Sample.entry Screen.BloodPressure "135/85" H).
Defined.

(** ** Numbers typed as plain digits *)

Section DigitFacts.

Local Open Scope Z_scope.

(** Rounding a positive mantissa at an exponent of at least [-1074] gives
    neither a zero nor [NaN]. *)
Lemma binary_round_aux_nonzero sx mx ex :
  0 < mx -> -1074 <= ex ->
  match binary_round_aux 53 1024 sx mx ex loc_Exact with
  | S754_zero _ | S754_nan => False
  | _ => True
  end.
Proof.
  intros Hm He. unfold binary_round_aux, shr_fexp.
  rewrite Zdigits2_log2 by lia.
  set (n1 := fexp 53 1024 (Z.log2 mx + 1 + ex) - ex).
  assert (F1 : fexp 53 1024 (Z.log2 mx + 1 + ex) = Z.max (Z.log2 mx + 1 + ex - 53) (-1074))
    by reflexivity.
  destruct (shr_spec (shr_record_of_loc mx loc_Exact) ex n1) as [M1 E1];
    [rewrite shr_record_of_loc_m; lia |].
  rewrite shr_record_of_loc_m in M1.
  destruct (shr (shr_record_of_loc mx loc_Exact) ex n1) as [mrs1 e1].
  simpl fst in M1; simpl snd in E1.
  set (r := round_nearest_even (shr_m mrs1) (loc_of_shr_record mrs1)).
  pose proof (round_nearest_even_bounds (shr_m mrs1) (loc_of_shr_record mrs1)) as R.
  fold r in R.
  assert (L0 : 0 <= Z.log2 mx) by apply Z.log2_nonneg.
  assert (M1pos : 0 < shr_m mrs1).
  { rewrite M1. destruct (Z.shiftr_eq_0_iff mx (Z.max n1 0)) as [D _].
    destruct (Z.eq_dec (Z.shiftr mx (Z.max n1 0)) 0) as [Z0 | NZ].
    - destruct (D Z0) as [? | [_ ?]]; subst n1; lia.
    - pose proof (Z.shiftr_nonneg mx (Z.max n1 0)). lia. }
  assert (Rpos : 0 < r) by lia.
  set (n2 := fexp 53 1024 (Zdigits2 r + e1) - e1).
  assert (F2 : fexp 53 1024 (Zdigits2 r + e1) = Z.max (Z.log2 r + 1 + e1 - 53) (-1074)).
  { rewrite Zdigits2_log2 by lia. reflexivity. }
  destruct (shr_spec (shr_record_of_loc r loc_Exact) e1 n2) as [M2 E2];
    [rewrite shr_record_of_loc_m; lia |].
  rewrite shr_record_of_loc_m in M2.
  destruct (shr (shr_record_of_loc r loc_Exact) e1 n2) as [mrs2 e2].
  simpl fst in M2; simpl snd in E2.
  assert (Lr : 0 <= Z.log2 r) by apply Z.log2_nonneg.
  assert (M2pos : 0 < shr_m mrs2).
  { rewrite M2. destruct (Z.shiftr_eq_0_iff r (Z.max n2 0)) as [D _].
    destruct (Z.eq_dec (Z.shiftr r (Z.max n2 0)) 0) as [Z0 | NZ].
    - destruct (D Z0) as [? | [_ ?]]; subst n1 n2; lia.
    - pose proof (Z.shiftr_nonneg r (Z.max n2 0)). lia. }
  destruct (shr_m mrs2) as [| m | m]; try lia.
  destruct (e2 <=? 1024 - 53); exact I.
Qed.

(** The Number value of a positive integer is truthy. *)
Lemma Number_of_Z_truthy z :
  0 < z -> JS.ToBoolean (JS.Num (JS.Number_of_Z z)) = true.
Proof.
  intros H. destruct z as [| p | p]; try lia.
  unfold JS.Number_of_Z, binary_normalize, binary_round, JS.prec, JS.emax.
  destruct (shl_align p 0 (fexp 53 1024 (Z.pos (digits2_pos p) + 0))) as [mz ez] eqn:A.
  assert (Ez : -1074 <= ez).
  { unfold shl_align in A.
    destruct (fexp 53 1024 (Z.pos (digits2_pos p) + 0) - 0) eqn:D;
      inversion A; subst; unfold fexp, emin in *; lia. }
  pose proof (binary_round_aux_nonzero false (Zpos mz) ez eq_refl Ez) as N.
  destruct (binary_round_aux 53 1024 false (Z.pos mz) ez loc_Exact);
    first [contradiction | reflexivity].
Qed.

Lemma digits_value_nonneg_from ds acc :
  0 <= acc ->
  0 <= fold_left (fun a c => 10 * a + JS.digit_value c) (list_ascii_of_string ds) acc.
Proof.
  revert acc. induction ds as [| c r IH]; intros acc H; simpl; [exact H |].
  apply IH. unfold JS.digit_value. lia.
Qed.

Lemma digits_value_nonneg ds : 0 <= JS.digits_value ds.
Proof. apply digits_value_nonneg_from. lia. Qed.

(** Doubling [d] times. *)
Lemma iter_xO_value d p : Zpos (Pos.iter xO p d) = Zpos p * 2 ^ Zpos d.
Proof.
  induction d as [| d IH] using Pos.peano_ind.
  - cbn [Pos.iter]. rewrite Pos2Z.inj_xO. change (2 ^ 1) with 2. lia.
  - rewrite Pos.iter_succ, Pos2Z.inj_xO, IH, Pos2Z.inj_succ, Z.pow_succ_r by lia. lia.
Qed.

(** A mantissa of 53 bits in the exponent range is not rounded. *)
Lemma binary_round_aux_exact sx mz ez :
  Zdigits2 (Zpos mz) = 53 -> -1074 <= ez <= 971 ->
  binary_round_aux 53 1024 sx (Zpos mz) ez loc_Exact = S754_finite sx mz ez.
Proof.
  intros D E. unfold binary_round_aux, shr_fexp. rewrite D.
  replace (fexp 53 1024 (53 + ez) - ez) with 0 by (unfold fexp, emin; lia).
  cbn [shr shr_record_of_loc shr_m loc_of_shr_record round_nearest_even].
  rewrite D.
  replace (fexp 53 1024 (53 + ez) - ez) with 0 by (unfold fexp, emin; lia).
  cbn [shr shr_record_of_loc shr_m].
  replace (ez <=? 1024 - 53) with true by (symmetry; apply Z.leb_le; lia).
  reflexivity.
Qed.

(** An integer below [2^53] has its own value as a Number. *)
Lemma Number_of_Z_exact n :
  0 < n < 2 ^ 53 -> exact_integer (JS.Number_of_Z n) n.
Proof.
  intros [Hn Hb]. destruct n as [| p | p]; try lia.
  unfold JS.Number_of_Z, binary_normalize, binary_round, JS.prec, JS.emax.
  assert (L : 0 <= Z.log2 (Zpos p) < 53).
  { split; [apply Z.log2_nonneg | apply Z.log2_lt_pow2; lia]. }
  pose proof (Zdigits2_log2 (Zpos p) eq_refl) as Dp. simpl Zdigits2 in Dp.
  rewrite Dp.
  replace (fexp 53 1024 (Z.log2 (Z.pos p) + 1 + 0)) with (Z.log2 (Zpos p) - 52)
    by (unfold fexp, emin; lia).
  unfold shl_align.
  destruct (Z.log2 (Zpos p) - 52 - 0) as [| d | d] eqn:Ed; try lia.
  - rewrite binary_round_aux_exact; [| rewrite Zdigits2_log2 by lia; lia | lia].
    reflexivity.
  - assert (V : Zpos (Pos.iter xO p d) = Zpos p * 2 ^ Zpos d) by apply iter_xO_value.
    rewrite binary_round_aux_exact.
    + cbn [exact_integer]. rewrite V.
      rewrite (Z.max_r (Z.log2 (Z.pos p) - 52) 0),
        (Z.max_l (- (Z.log2 (Z.pos p) - 52)) 0) by lia.
      change (2 ^ 0) with 1. rewrite Z.mul_1_r. f_equal. f_equal. lia.
    + rewrite Zdigits2_log2 by lia. rewrite V.
      rewrite Z.log2_mul_pow2 by lia. lia.
    + lia.
Qed.

End DigitFacts.

Lemma digit_not_space c r :
  JS.is_digit c = true -> JS.TrimStart (String c r) = String c r.
Proof.
  intros H. destruct c as [[] [] [] [] [] [] [] []]; try discriminate H;
    destruct r as [| c2 [| c3 r3]]; reflexivity.
Qed.

Lemma digit_not_sign c r :
  JS.is_digit c = true -> JS.take_sign (String c r) = (false, String c r).
Proof.
  intros H. destruct c as [[] [] [] [] [] [] [] []]; try discriminate H; reflexivity.
Qed.

Lemma digit_not_Infinity c r :
  JS.is_digit c = true -> String.prefix "Infinity" (String c r) = false.
Proof.
  intros H. destruct c as [[] [] [] [] [] [] [] []]; try discriminate H; reflexivity.
Qed.

Lemma take_digits_all ds :
  JS.all_digits ds = true -> JS.take_digits ds = (ds, EmptyString).
Proof.
  induction ds as [| c r IH]; [reflexivity |]. simpl. intros H.
  apply andb_prop in H as [Hc Hr]. rewrite Hc, (IH Hr). reflexivity.
Qed.

Lemma digits_not_prefixed (x : ascii) ds :
  JS.is_digit x = false -> JS.all_digits ds = true ->
  String.prefix (String "0" (String x EmptyString)) ds = false.
Proof.
  intros Hx Hd.
  destruct (String.prefix (String "0" (String x EmptyString)) ds) eqn:P;
    [| reflexivity].
  apply String.prefix_correct in P.
  destruct ds as [| c [| c2 r]]; try discriminate P.
  change (String c (String c2 (substring 0 0 r))
          = String "0" (String x EmptyString)) in P.
  injection P as _ -> _.
  simpl in Hd. rewrite Hx in Hd. rewrite andb_false_r in Hd. discriminate Hd.
Qed.

Lemma digits_not_hex ds :
  JS.all_digits ds = true ->
  String.prefix "0x" ds || String.prefix "0X" ds = false.
Proof.
  intros H.
  rewrite (digits_not_prefixed "x" ds eq_refl H),
    (digits_not_prefixed "X" ds eq_refl H).
  reflexivity.
Qed.

Lemma take_radix_digits_all ds :
  JS.all_digits ds = true ->
  JS.take_radix_digits false ds = map JS.digit_value (list_ascii_of_string ds).
Proof.
  induction ds as [| c r IH]; [reflexivity |]. simpl. intros H.
  apply andb_prop in H as [Hc Hr]. rewrite Hc, (IH Hr). reflexivity.
Qed.

Lemma fold_left_map_digits (l : list ascii) (acc : Z) :
  fold_left (fun a d => (10 * a + d)%Z) (map JS.digit_value l) acc
  = fold_left (fun a c => (10 * a + JS.digit_value c)%Z) l acc.
Proof. revert acc. induction l as [| c l IH]; intros acc; simpl; auto. Qed.

(** [parseInt] of a string of decimal digits is the Number value of the
    integer they write. *)
Lemma parseInt_digits ds :
  ds ≠ EmptyString -> JS.all_digits ds = true ->
  JS.parseInt ds = JS.Number_of_Z (JS.digits_value ds).
Proof.
  intros Hne Hd. destruct ds as [| c r]; [congruence |].
  pose proof Hd as Hd'. simpl in Hd'. apply andb_prop in Hd' as [Hc Hr].
  unfold JS.parseInt. rewrite (digit_not_space c r Hc), (digit_not_sign c r Hc).
  rewrite (digits_not_hex _ Hd), (take_radix_digits_all _ Hd).
  unfold JS.digits_value. rewrite <- fold_left_map_digits.
  simpl map. reflexivity.
Qed.

Lemma append_empty s : s +:+ EmptyString = s.
Proof.
  induction s as [| c r IH]; [reflexivity |].
  change (String c (r +:+ EmptyString) = String c r). rewrite IH. reflexivity.
Qed.

(** [parseFloat] of a string of decimal digits is the Number value of the
    integer they write. *)
Lemma parseFloat_digits ds :
  ds ≠ EmptyString -> JS.all_digits ds = true ->
  JS.parseFloat ds = JS.Number_of_Z (JS.digits_value ds).
Proof.
  intros Hne Hd. destruct ds as [| c r]; [congruence |].
  pose proof Hd as Hd'. simpl in Hd'. apply andb_prop in Hd' as [Hc Hr].
  unfold JS.parseFloat. rewrite (digit_not_space c r Hc), (digit_not_sign c r Hc).
  rewrite (digit_not_Infinity c r Hc), (take_digits_all _ Hd).
  cbn [String.eqb andb]. 
  rewrite append_empty.
  change (JS.exponent_part EmptyString - Z.of_nat (String.length EmptyString))%Z with 0%Z.
  pose proof (digits_value_nonneg (String c r)) as N.
  unfold JS.Number_of_decimal, JS.Number_of_Z, binary_normalize.
  destruct (JS.digits_value (String c r)) as [| p | p]; try lia; try reflexivity.
  cbn [Z.leb Z.compare Z.pow Z.pow_pos Pos.iter Z.to_pos Z.mul].
  change (Z.to_pos (10 ^ 0)) with 1%positive. rewrite Pos.mul_1_r. reflexivity.
Qed.

Lemma optional_digits ds :
  ds ≠ EmptyString -> JS.all_digits ds = true ->
  JS.or_else (JS.Num (JS.parseFloat ds)) JS.Null
  = if (JS.digits_value ds =? 0)%Z then JS.Null
    else JS.Num (JS.Number_of_Z (JS.digits_value ds)).
Proof.
  intros Hne Hd. rewrite (parseFloat_digits ds Hne Hd).
  pose proof (digits_value_nonneg ds) as N.
  destruct (Z.eqb_spec (JS.digits_value ds) 0) as [-> | NZ]; [reflexivity |].
  unfold JS.or_else. rewrite Number_of_Z_truthy by lia. reflexivity.
Qed.

(** X13. What the request object holds for numbers typed as plain
    decimal digits.  For such an age it holds the Number value of the
    integer written, that is the integer rounded to binary64.  For such a
    count of daily steps, of activity minutes or of stress it holds that
    Number when the integer is not zero, and [null] when it is zero.  The
    gender is held as it is, and the BMI category as it is unless it is
    empty, when [null] is held.  The Number value of a positive integer
    below [2^53] is that integer exactly; above it the digits typed can be
    lost: for "9007199254740993" the request holds the Number
    9007199254740992, and for an age of 400 nines it holds [Infinity],
    which the posted body writes as [null]. *)
Theorem X13_request_from_digits (f : FormEntry) :
  let digits s := s ≠ EmptyString ∧ JS.all_digits s = true in
  let count s :=
    if (JS.digits_value s =? 0)%Z then JS.Null
    else JS.Num (JS.Number_of_Z (JS.digits_value s)) in
  let sent k := JS.get (request_object f) k in
  (digits (age f) ->
     sent "age" = Some (JS.Num (JS.Number_of_Z (JS.digits_value (age f)))))
  ∧ (digits (dailySteps f) -> sent "daily_steps" = Some (count (dailySteps f)))
  ∧ (digits (physicalActivity f) ->
       sent "physical_activity_minutes" = Some (count (physicalActivity f)))
  ∧ (digits (stressLevel f) -> sent "stress_level" = Some (count (stressLevel f)))
  ∧ sent "gender" = Some (JS.Str (gender f))
  ∧ sent "bmi_category"
    = Some (if String.eqb (bmiCategory f) EmptyString then JS.Null
            else JS.Str (bmiCategory f))
  ∧ (∀ n, (0 < n < 2 ^ 53)%Z -> exact_integer (JS.Number_of_Z n) n)
  ∧ (JS.parseInt "9007199254740993" = JS.Number_of_Z 9007199254740992
     ∧ exact_integer (JS.Number_of_Z 9007199254740992) 9007199254740992)
  ∧ (JS.parseInt (JS.repeat_string 400 "9") = S754_infinity false
     ∧ JS.JSON_value (JS.Num (JS.parseInt (JS.repeat_string 400 "9"))) = "null").
Proof.
  cbv zeta. unfold request_object. cbn [JS.get String.eqb Ascii.eqb Bool.eqb].
  split; [| split; [| split; [| split; [| split; [| split; [| split; [| split]]]]]]].
  - intros [Hn Hd]. rewrite (parseInt_digits _ Hn Hd). reflexivity.
  - intros [Hn Hd]. rewrite (optional_digits _ Hn Hd). reflexivity.
  - intros [Hn Hd]. rewrite (optional_digits _ Hn Hd). reflexivity.
  - intros [Hn Hd]. rewrite (optional_digits _ Hn Hd). reflexivity.
  - reflexivity.
  - unfold JS.or_else, JS.ToBoolean. destruct (String.eqb (bmiCategory f) EmptyString);
      reflexivity.
  - exact Number_of_Z_exact.
  - split; vm_compute; reflexivity.
  - split; vm_compute; reflexivity.
Qed.

Lemma X13_witness :
  let f := Sample.idle_entry in
  (age f ≠ EmptyString ∧ JS.all_digits (age f) = true)
  ∧ (dailySteps f ≠ EmptyString ∧ JS.all_digits (dailySteps f) = true)
  ∧ (0 < 35 < 2 ^ 53)%Z
  ∧ JS.get (request_object f) "age" = Some (JS.Num (JS.Number_of_Z 35))
  ∧ JS.get (request_object f) "daily_steps" = Some JS.Null
  ∧ exact_integer (JS.Number_of_Z 35) 35.
Proof.
  assert (Ha : age Sample.idle_entry ≠ EmptyString
               ∧ JS.all_digits (age Sample.idle_entry) = true)
    by (split; [discriminate | reflexivity]).
  assert (Hd : dailySteps Sample.idle_entry ≠ EmptyString
               ∧ JS.all_digits (dailySteps Sample.idle_entry) = true)
    by (split; [discriminate | reflexivity]).
  assert (Hb : (0 < 35 < 2 ^ 53)%Z) by (split; reflexivity).
  pose proof (X13_request_from_digits Sample.idle_entry)
    as (A & D & _ & _ & _ & _ & E & _).
  split; [exact Ha |]. split; [exact Hd |]. split; [exact Hb |].
  split; [exact (A Ha) |]. split; [exact (D Hd) | exact (E 35%Z Hb)].
Defined.

(** ** The pickers *)

(** X14. Over any run of presses on a picker button, [onSelect] is called
    once for each row pressed, in order, with the value of that row's
    option, and for nothing else; and each selection needs an opening of its
    own, so there are no more calls than header presses (one more when the
    run starts with the list open). *)
Theorem X14_presses_and_calls (props : Enhanced.PickerProps)
    (ps : list Enhanced.Press) (st st' : bool) (calls : list string) :
  Screen.press_all props st ps = Some (st', calls) ->
  calls = omap (fun p => match p with
                         | Enhanced.PressHeader => None
                         | Enhanced.PressOption i =>
                             Enhanced.option_value <$> (Enhanced.options props !! i)
                         end) ps
  ∧ (length calls
     <= length (List.filter (fun p => match p with
                                      | Enhanced.PressHeader => true
                                      | _ => false
                                      end) ps)
        + (if st then 1 else 0))%nat.
Proof.
  revert st st' calls. induction ps as [| p r IH]; intros st st' calls H.
  - injection H as <- <-. split; [reflexivity | simpl; lia].
  - simpl in H.
    destruct (Enhanced.press props st p) as [[st1 c1] |] eqn:P; [| discriminate].
    destruct (Screen.press_all props st1 r) as [[st2 c2] |] eqn:R; [| discriminate].
    injection H as <- <-.
    destruct (IH _ _ _ R) as [E L].
    destruct p as [| i]; simpl in P.
    + injection P as <- <-. split; [exact E |].
      simpl. destruct st; simpl in *; lia.
    + destruct st; [| discriminate].
      destruct (Enhanced.options props !! i) as [o |] eqn:O; [| discriminate].
      injection P as <- <-. split.
      * simpl. rewrite O. simpl. f_equal. exact E.
      * simpl in *. lia.
Qed.

Lemma X14_witness :
  let props := Enhanced.gender_picker Sample.entry in
  let ps := [Enhanced.PressHeader; Enhanced.PressOption 1;
             Enhanced.PressHeader; Enhanced.PressHeader] in
  Screen.press_all props false ps = Some (false, ["Female"])
  ∧ (length ["Female"] <= 3 + 0)%nat.
Proof.
  split; [reflexivity |].
  exact (proj2 (X14_presses_and_calls (Enhanced.gender_picker Sample.entry)
                  [Enhanced.PressHeader; Enhanced.PressOption 1;
                   Enhanced.PressHeader; Enhanced.PressHeader]
                  false false ["Female"] eq_refl)).
Defined.

(** X15. A selection reaches the form and comes back to the header.  On
    the enhanced screen, a press on a row of an open picker closes it and
    writes the value of that row's option, which is not empty, into the
    picker's field and into no other; rendered again from the new form, the
    picker is closed and its header shows that option's label in the
    selected style. *)
Theorem X15_selection_round_trip (env : Env) (s : State)
    (key : Screen.Field) (props : Enhanced.PickerProps)
    (i : nat) (o : Enhanced.PickerOption) :
  In (key, props) (Screen.picker_buttons (form s)) ->
  Enhanced.options props !! i = Some o ->
  ∃ calls,
    Enhanced.press props true (Enhanced.PressOption i) = Some (false, calls)
    ∧ let s' := state_of (Screen.on_select key calls env s) in
      Screen.get_field (form s') key = Enhanced.option_value o
      ∧ Enhanced.option_value o ≠ EmptyString
      ∧ (∀ k, k ≠ key ->
              Screen.get_field (form s') k = Screen.get_field (form s) k)
      ∧ ∃ props',
          In (key, props') (Screen.picker_buttons (form s'))
          ∧ Enhanced.PickerButton props' false
            = {| Enhanced.header_style := Enhanced.pickerButtonTextSelected;
                 Enhanced.header_text := Enhanced.option_label o;
                 Enhanced.arrow := "▼";
                 Enhanced.rows := None |}.
Proof.
  intros Hp Ho. exists [Enhanced.option_value o].
  split; [cbn; rewrite Ho; reflexivity |].
  cbv zeta.
  destruct Hp as [E | [E | [E | []]]]; injection E as <- <-;
    cbn in Ho;
    repeat (destruct i as [| i]; cbn in Ho;
            [injection Ho as <-; cbn;
             (split; [reflexivity |]); (split; [discriminate |]);
             (split; [intros k Hk; destruct k; first [reflexivity | congruence] |]);
             eexists; split;
             [ first [ left; reflexivity
                     | right; left; reflexivity
                     | right; right; left; reflexivity ]
             | reflexivity ]
            |]);
    discriminate Ho.
Qed.

Lemma X15_witness :
  let s := Sample.screen Sample.entry in
  let o := {| Enhanced.option_label := "Obese"; Enhanced.option_value := "Obese" |} in
  (In (Screen.BmiCategory, Enhanced.bmi_picker (form s))
      (Screen.picker_buttons (form s))
   ∧ Enhanced.options (Enhanced.bmi_picker (form s)) !! 3 = Some o)
  ∧ ∃ calls,
      Enhanced.press (Enhanced.bmi_picker (form s)) true (Enhanced.PressOption 3)
        = Some (false, calls)
      ∧ bmiCategory (form (state_of (Screen.on_select Screen.BmiCategory calls
                                       Sample.online s))) = "Obese".
Proof.
  assert (Hp : In (Screen.BmiCategory,
                   Enhanced.bmi_picker (form (Sample.screen Sample.entry)))
                  (Screen.picker_buttons (form (Sample.screen Sample.entry))))
    by (right; left; reflexivity).
  split; [split; [exact Hp | reflexivity] |].
  destruct (X15_selection_round_trip Sample.online (Sample.screen Sample.entry)
              Screen.BmiCategory _ 3 _ Hp eq_refl) as (calls & P & G & _).
  exists calls. split; [exact P | exact G].
Defined.

Lemma press_all_values props ps st st' calls :
  Screen.press_all props st ps = Some (st', calls) ->
  Forall (fun v => ∃ o, In o (Enhanced.options props) ∧ Enhanced.option_value o = v)
         calls.
Proof.
  revert st st' calls. induction ps as [| p r IH]; intros st st' calls H.
  - injection H as <- <-. constructor.
  - simpl in H.
    destruct (Enhanced.press props st p) as [[st1 c1] |] eqn:P; [| discriminate].
    destruct (Screen.press_all props st1 r) as [[st2 c2] |] eqn:R; [| discriminate].
    injection H as <- <-. apply Forall_app. split; [| exact (IH _ _ _ R)].
    destruct p as [| i]; simpl in P.
    + injection P as <- <-. constructor.
    + destruct st; [| discriminate].
      destruct (Enhanced.options props !! i) as [o |] eqn:O; [| discriminate].
      injection P as <- <-. constructor; [| constructor].
      exists o. split; [| reflexivity].
      apply list_elem_of_In. eapply list_elem_of_lookup_2. exact O.
Qed.

Lemma screen_option_values f key props o :
  In (key, props) (Screen.picker_buttons f) ->
  In o (Enhanced.options props) ->
  Enhanced.option_value o ≠ EmptyString.
Proof.
  intros Hp Ho.
  destruct Hp as [E | [E | [E | []]]]; injection E as <- <-; cbn in Ho;
    repeat (destruct Ho as [<- | Ho]; [discriminate |]); destruct Ho.
Qed.

Lemma Forall_last {A} (P : A -> Prop) (l : list A) (d : A) :
  Forall P l -> l ≠ [] -> P (List.last l d).
Proof.
  induction 1 as [| x l Hx Hl IH]; intros Hne; [congruence |].
  destruct l as [| y l']; [exact Hx |]. apply IH. discriminate.
Qed.

Lemma on_select_step key v r env s :
  state_of (Screen.on_select key (v :: r) env s)
  = state_of (Screen.on_select key r env (state_of (Screen.edit key v env s))).
Proof.
  unfold Screen.on_select at 1. fold Screen.on_select.
  unfold mbind, Async_bind. cbn.
  destruct (Screen.on_select key r env _) as [[o s2] t2]. reflexivity.
Qed.

Lemma on_select_last key calls env s :
  calls ≠ [] ->
  Screen.get_field (form (state_of (Screen.on_select key calls env s))) key
  = List.last calls EmptyString.
Proof.
  revert s. induction calls as [| v r IH]; intros s H; [congruence |].
  rewrite on_select_step. destruct r as [| w r'].
  - cbn. destruct key; reflexivity.
  - rewrite IH by discriminate. reflexivity.
Qed.

(** X16. The enhanced pickers cannot clear a field: over any run of
    presses on a picker button of the screen every value passed to
    [onSelect] is non-empty, so a run that selects anything leaves the
    picker's field non-empty.  The native pickers of the baseline screen
    can: the first item of each one carries the empty value, and after the
    first item of the gender picker is chosen a save stops at the guard. *)
Theorem X16_clearing_a_choice (env : Env) (s : State) :
  (∀ key props st ps st' calls,
     In (key, props) (Screen.picker_buttons (form s)) ->
     Screen.press_all props st ps = Some (st', calls) ->
     Forall (fun v => v ≠ EmptyString) calls
     ∧ (calls ≠ [] ->
          Screen.get_field (form (state_of (Screen.on_select key calls env s))) key
            ≠ EmptyString))
  ∧ (∀ key items,
       In (key, items) Screen.native_pickers ->
       Screen.get_field
         (form (state_of (Screen.choose_item key items 0 env s))) key
       = EmptyString)
  ∧ (∀ items,
       In (Screen.Gender, items) Screen.native_pickers ->
       trace_of (saveData baseline env
                   (state_of (Screen.choose_item Screen.Gender items 0 env s)))
       = [Alert "Please fill in at least Age and Gender"]).
Proof.
  split; [| split].
  - intros key props st ps st' calls Hp Hr.
    assert (F : Forall (fun v => v ≠ EmptyString) calls).
    { eapply Forall_impl; [exact (press_all_values _ _ _ _ _ Hr) |].
      intros v (o & Ho & <-). exact (screen_option_values _ _ _ _ Hp Ho). }
    split; [exact F |].
    intros Hc. rewrite (on_select_last key calls env s Hc).
    exact (Forall_last _ _ _ F Hc).
  - intros key items Hi.
    destruct Hi as [E | [E | [E | []]]]; injection E as <- <-; reflexivity.
  - intros items Hi.
    rewrite saveData_guarded; [reflexivity |]. right.
    destruct Hi as [E | [E | [E | []]]]; first [discriminate E | idtac];
      injection E as <-; reflexivity.
Qed.

(** ** The snapshot keeps every field *)

Lemma append_assoc_r a b c : (a +:+ b) +:+ c = a +:+ b +:+ c.
Proof.
  induction a as [| x a IH]; [reflexivity |].
  change (String x ((a +:+ b) +:+ c) = String x (a +:+ b +:+ c)).
  rewrite IH. reflexivity.
Qed.

(** Reading undoes the escaping of [QuoteJSONString]. *)
Lemma read_chars_step c r :
  Reader.read_chars (JS.quote_char c +:+ r)
  = match Reader.read_chars r with
    | Some (t, rest) => Some (String c t, rest)
    | None => None
    end.
Proof. destruct c as [[] [] [] [] [] [] [] []]; reflexivity. Qed.

Lemma read_chars_quote_chars_to s rest T :
  T = JS.DQUOTE +:+ rest ->
  Reader.read_chars (JS.quote_chars s +:+ T) = Some (s, rest).
Proof.
  intros ET. induction s as [| c s IH]; [subst T; reflexivity |].
  change (JS.quote_chars (String c s)) with (JS.quote_char c +:+ JS.quote_chars s).
  rewrite append_assoc_r, read_chars_step, IH. reflexivity.
Qed.

Lemma read_chars_quote_chars s rest :
  Reader.read_chars (JS.quote_chars s +:+ JS.DQUOTE +:+ rest) = Some (s, rest).
Proof. apply read_chars_quote_chars_to. reflexivity. Qed.

Lemma read_quoted_quote s rest :
  Reader.read_quoted (JS.QuoteJSONString s +:+ rest) = Some (s, rest).
Proof.
  unfold JS.QuoteJSONString. rewrite !append_assoc_r.
  change (Reader.read_chars (JS.quote_chars s +:+ JS.DQUOTE +:+ rest) = Some (s, rest)).
  apply read_chars_quote_chars.
Qed.

Lemma expect_append lit r : Reader.expect lit (lit +:+ r) = Some r.
Proof.
  induction lit as [| a lit IH]; [reflexivity |].
  change (Reader.expect (String a lit) (String a (lit +:+ r)) = Some r).
  cbn [Reader.expect]. rewrite Ascii.eqb_refl. exact IH.
Qed.

Lemma read_member_spec sep k v rest :
  Reader.read_member sep k
    (sep +:+ JS.QuoteJSONString (Screen.field_name k) +:+ ":"
     +:+ JS.QuoteJSONString v +:+ rest)
  = Some (v, rest).
Proof.
  unfold Reader.read_member.
  rewrite <- (append_assoc_r (JS.QuoteJSONString (Screen.field_name k)) ":"
                (JS.QuoteJSONString v +:+ rest)).
  rewrite <- (append_assoc_r sep (JS.QuoteJSONString (Screen.field_name k) +:+ ":")
                (JS.QuoteJSONString v +:+ rest)).
  rewrite expect_append. apply read_quoted_quote.
Qed.


Lemma read_members_cons sep k ks s :
  Reader.read_members sep (k :: ks) s
  = match Reader.read_member sep k s with
    | Some (v, r) =>
        match Reader.read_members "," ks r with
        | Some (vs, r') => Some (v :: vs, r')
        | None => None
        end
    | None => None
    end.
Proof. reflexivity. Qed.

Lemma read_members_spec f ks sep rest :
  ks ≠ [] ->
  Reader.read_members sep ks
    (sep +:+ JS.join ","
               (map Reader.member_text
                  (map (fun k => (Screen.field_name k, JS.Str (Screen.get_field f k))) ks))
     +:+ rest)
  = Some (map (Screen.get_field f) ks, rest).
Proof.
  revert sep. induction ks as [| k ks IH]; intros sep Hne; [congruence |].
  destruct ks as [| k2 ks'].
  - cbn [map JS.join Reader.read_members]. unfold Reader.member_text. cbn [fst snd JS.JSON_value].
    rewrite !append_assoc_r, read_member_spec. reflexivity.
  - change (JS.join "," (map Reader.member_text
              (map (fun k => (Screen.field_name k, JS.Str (Screen.get_field f k)))
                   (k :: k2 :: ks'))))
      with (Reader.member_text (Screen.field_name k, JS.Str (Screen.get_field f k))
            +:+ "," +:+ JS.join "," (map Reader.member_text
              (map (fun k => (Screen.field_name k, JS.Str (Screen.get_field f k)))
                   (k2 :: ks')))).
    unfold Reader.member_text at 1. cbn [fst snd JS.JSON_value].
    rewrite !append_assoc_r.
    rewrite read_members_cons, read_member_spec.
    rewrite IH by discriminate. reflexivity.
Qed.

Lemma snapshot_layout f :
  snapshot f
  = "{" +:+ JS.join ","
              (map Reader.member_text
                 (map (fun k => (Screen.field_name k, JS.Str (Screen.get_field f k)))
                      Screen.all_fields))
    +:+ "}".
Proof. reflexivity. Qed.

(** Reading a snapshot gives back the form it was taken from. *)
Lemma read_snapshot_snapshot f : Reader.read_snapshot (snapshot f) = Some f.
Proof.
  unfold Reader.read_snapshot.
  rewrite snapshot_layout, read_members_spec by discriminate.
  destruct f. reflexivity.
Qed.

(** X17. The snapshot keeps every field: two forms with the same
    snapshot are the same form, so an edit that changes a field changes
    the snapshot.  The escaping of quotes, backslashes and control
    characters makes the text of one field end where it ends, so no value
    can spill into the next key. *)
Theorem X17_snapshot_injective (f g : FormEntry) :
  JS.JSON_stringify (form_object f) = JS.JSON_stringify (form_object g) ->
  f = g
  ∧ ∀ k v, g = Screen.set_field f k v -> v = Screen.get_field f k.
Proof.
  intros H. fold (snapshot f) in H. fold (snapshot g) in H.
  apply (f_equal Reader.read_snapshot) in H.
  rewrite !read_snapshot_snapshot in H. injection H as H.
  split; [exact H |].
  intros k v E.
  assert (G : Screen.get_field f k
              = Screen.get_field (Screen.set_field f k v) k) by congruence.
  rewrite G. destruct k; reflexivity.
Qed.

Lemma X17_witness :
  JS.JSON_stringify (form_object Sample.entry)
    = JS.JSON_stringify (form_object Sample.entry)
  ∧ Sample.entry = Sample.entry.
Proof.
  split; [reflexivity |].
  exact (proj1 (X17_snapshot_injective Sample.entry Sample.entry eq_refl)).
Defined.

(** ** Further instances *)

Lemma X1_witness :
  let s := Sample.screen Sample.entry in
  let r := Screen.handleChange (form s) Screen.Age "29" Sample.online s in
  Screen.Gender ≠ Screen.Age
  ∧ age (form (state_of r)) = "29"
  ∧ gender (form (state_of r)) = "Male".
Proof.
  assert (H : Screen.Gender ≠ Screen.Age) by discriminate.
  pose proof (X1_handleChange_sets_one_field
                (form (Sample.screen Sample.entry)) Screen.Age "29" Sample.online
                (Sample.screen Sample.entry)) as (_ & _ & A & O & _).
  split; [exact H |]. split; [exact A | exact (O Screen.Gender H)].
Defined.

Lemma X7_witness :
  let s := Sample.screen (Sample.with_age EmptyString Sample.entry) in
  ¬ required_filled (form s)
  ∧ alerts (trace_of (saveData baseline Sample.offline s))
    = alerts (trace_of (saveData enhanced Sample.offline s)).
Proof.
  assert (H : ¬ required_filled
                (form (Sample.screen (Sample.with_age EmptyString Sample.entry))))
    by (intros [A _]; apply A; reflexivity).
  split; [exact H |].
  pose proof (X7_variants_agree Sample.offline
                (Sample.screen (Sample.with_age EmptyString Sample.entry)))
    as (_ & _ & _ & _ & _ & G).
  exact (G H).
Defined.

Lemma X16_witness :
  let s := Sample.screen Sample.entry in
  let placeholder := {| Screen.item_label := "Select Gender";
                        Screen.item_value := EmptyString |} in
  In (Screen.Gender,
      [ placeholder;
        {| Screen.item_label := "Male"; Screen.item_value := "Male" |};
        {| Screen.item_label := "Female"; Screen.item_value := "Female" |} ])
     Screen.native_pickers
  ∧ trace_of (saveData baseline Sample.online
                (state_of (Screen.choose_item Screen.Gender
                             [ placeholder;
                               {| Screen.item_label := "Male";
                                  Screen.item_value := "Male" |};
                               {| Screen.item_label := "Female";
                                  Screen.item_value := "Female" |} ]
                             0 Sample.online s)))
    = [Alert "Please fill in at least Age and Gender"].
Proof.
  assert (H : In (Screen.Gender,
                  [ {| Screen.item_label := "Select Gender";
                       Screen.item_value := EmptyString |};
                    {| Screen.item_label := "Male"; Screen.item_value := "Male" |};
                    {| Screen.item_label := "Female"; Screen.item_value := "Female" |} ])
                 Screen.native_pickers) by (left; reflexivity).
  split; [exact H |].
  pose proof (X16_clearing_a_choice Sample.online (Sample.screen Sample.entry))
    as (_ & _ & G).
  exact (G _ H).
Defined.

(** ** The inputs *)

(** X18. The inputs are wired to the form one to one.  Their change
    handlers write the twelve keys of the form, each exactly once and in
    the order of the keys; after an input is changed to a text, that input
    shows the text and every other input shows what it showed.  Every
    field the prediction client parses as a number (age, daily steps,
    activity minutes, stress level) is typed on a numeric keyboard. *)
Theorem X18_inputs_wired_one_to_one :
  map Screen.writes Screen.inputs = Screen.all_fields
  ∧ (∀ i t env s,
       In i Screen.inputs ->
       let s' := state_of (Screen.change_input i t env s) in
       Screen.shown s' i = t
       ∧ ∀ j, In j Screen.inputs -> j ≠ i -> Screen.shown s' j = Screen.shown s j)
  ∧ (∀ i, In i Screen.inputs ->
          In (Screen.writes i)
             [Screen.Age; Screen.DailySteps; Screen.PhysicalActivity;
              Screen.StressLevel] ->
          ∃ placeholder, Screen.control i = Screen.TextInput true placeholder).
Proof.
  split; [reflexivity |]. split.
  - intros i t env s Hi. cbv zeta. split.
    + repeat (destruct Hi as [<- | Hi]; [reflexivity |]). destruct Hi.
    + intros j Hj Hne.
      repeat (destruct Hi as [<- | Hi];
              [ repeat (destruct Hj as [<- | Hj];
                        [first [reflexivity | congruence] |]);
                destruct Hj |]).
      destruct Hi.
  - intros i Hi Hw.
    repeat (destruct Hi as [<- | Hi];
            [ first [ eexists; reflexivity
                    | exfalso; cbn in Hw;
                      repeat (destruct Hw as [Hw | Hw]; [discriminate Hw |]);
                      exact Hw ] |]).
    destruct Hi.
Qed.

Lemma X18_witness :
  let i := {| Screen.caption := "Daily Steps"; Screen.shows := Screen.DailySteps;
              Screen.writes := Screen.DailySteps;
              Screen.control := Screen.TextInput true "e.g., 5000" |} in
  In i Screen.inputs
  ∧ Screen.shown (state_of (Screen.change_input i "8000" Sample.online
                              (Sample.screen Sample.entry))) i = "8000".
Proof.
  assert (H : In {| Screen.caption := "Daily Steps"; Screen.shows := Screen.DailySteps;
                    Screen.writes := Screen.DailySteps;
                    Screen.control := Screen.TextInput true "e.g., 5000" |}
                 Screen.inputs) by (simpl; tauto).
  split; [exact H |].
  pose proof X18_inputs_wired_one_to_one as (_ & W & _).
  exact (proj1 (W _ "8000" Sample.online (Sample.screen Sample.entry) H)).
Defined.
